(** * Task and chat HTTP backend (src/index.js): shallow embedding

    The service is six Express route handlers over two external stores:
    a Firestore collection [tasks] and a Realtime Database path [chats].
    Each handler is embedded as a function from the request and the
    world (the two stores, the clock, the stores' id generators) to a
    response and the next world.  Every store call a handler issues is
    recorded in a log, so that statements of the form "no store call is
    made" or "the record written is ..." are statements about the log. *)

From Stdlib Require Import ZArith QArith.QArith_base String Ascii Lia.
From stdpp Require Import base option list sorting gmap strings.

Set Warnings "-register-all".

Local Open Scope Z_scope.
Local Open Scope string_scope.
Local Open Scope list_scope.

(** ** JavaScript values *)

(** A JavaScript number: NaN, an infinity, or a finite value.  Finite
    doubles are rationals, so [Fin q] carries the value read. *)
Inductive JsNumber : Type :=
  | NaN
  | Inf (negative : bool)
  | Fin (q : Q).

(** The values that travel through the handlers: what [JSON.parse]
    yields for a request body, what the stores give back, and
    [undefined] for an absent property.  [JDate ms] stands for a
    JavaScript [Date] and for the Firestore [Timestamp] it is stored as
    ([toDate] maps one to the other), in epoch milliseconds. *)
Inductive JsValue : Type :=
  | JUndefined
  | JNull
  | JBool (b : bool)
  | JNum (n : JsNumber)
  | JStr (s : string)
  | JDate (ms : Z)
  | JArr (elems : list JsValue)
  | JObj (props : list (string * JsValue)).

(** A plain object used as a record: request bodies, the records handed
    to the stores and the documents read back. *)
Abbreviation Obj := (gmap string JsValue).

(** [o.k]: reading a property that is absent gives [undefined]. *)
Definition prop (o : Obj) (k : string) : JsValue :=
  default JUndefined (o !! k).

(** ToBoolean on a number: [0], [-0] and [NaN] are falsy. *)
Definition number_truthy (n : JsNumber) : bool :=
  match n with
  | NaN => false
  | Inf _ => true
  | Fin q => negb (Z.eqb (Qnum q) 0)
  end.

(** ToBoolean.  Objects, arrays and dates are always truthy. *)
Definition truthy (v : JsValue) : bool :=
  match v with
  | JUndefined | JNull => false
  | JBool b => b
  | JNum n => number_truthy n
  | JStr s => negb (String.eqb s EmptyString)
  | JDate _ | JArr _ | JObj _ => true
  end.

(** [a || b] *)
Definition js_or (a b : JsValue) : JsValue :=
  if truthy a then a else b.

(** [a === b] for values taken from two different documents: primitives
    compare by value ([NaN] is equal to nothing), objects by identity,
    and two documents never share an object. *)
Definition strict_eq (a b : JsValue) : bool :=
  match a, b with
  | JUndefined, JUndefined => true
  | JNull, JNull => true
  | JBool x, JBool y => eqb x y
  | JNum (Fin x), JNum (Fin y) => Qeq_bool x y
  | JNum (Inf x), JNum (Inf y) => eqb x y
  | JStr x, JStr y => String.eqb x y
  | _, _ => false
  end.

(** Binary [-] on numbers. *)
Definition js_minus (x y : JsNumber) : JsNumber :=
  match x, y with
  | NaN, _ | _, NaN => NaN
  | Inf a, Inf b => if eqb a b then NaN else Inf a
  | Inf a, Fin _ => Inf a
  | Fin _, Inf b => Inf (negb b)
  | Fin a, Fin b => Fin (Qminus a b)
  end.

(** [String.prototype.includes]: [needle] occurs in [hay]. *)
Fixpoint includes (hay needle : string) : bool :=
  String.prefix needle hay ||
  match hay with
  | EmptyString => false
  | String _ rest => includes rest needle
  end.

(** The high sentinel the list handler appends to the search term:
    code point U+F8FF, bytes EF A3 BF in the UTF-8 the stores order
    strings by. *)
Definition highSentinel : string :=
  String (ascii_of_nat 239) (String (ascii_of_nat 163)
    (String (ascii_of_nat 191) EmptyString)).

(** ** Exceptions *)

(** What a handler's [catch] can receive: a [TypeError] raised by the
    handler's own code, or a rejection from one of the stores. *)
Inductive Error : Type :=
  | TypeError
  | Unavailable
  | NotFound
  | AlreadyExists.

Inductive Outcome (A : Type) : Type :=
  | Ok (a : A)
  | Throw (e : Error).
Arguments Ok {A} a.
Arguments Throw {A} e.

#[global] Instance Outcome_ret : MRet Outcome := λ A a, Ok a.
#[global] Instance Outcome_bind : MBind Outcome := λ A B f m,
  match m with
  | Ok a => f a
  | Throw e => Throw e
  end.

(** ** The world outside the handlers *)

(** The two queries the list handler builds: the whole collection, or
    [where('title', '>=', lo).where('title', '<=', hi)]. *)
Inductive Query : Type :=
  | Collection
  | TitleRange (lo hi : string).

(** One entry per request sent to a store. *)
Inductive StoreCall : Type :=
  | FirestoreAdd (data : Obj)
  | FirestoreUpdate (id : string) (data : Obj)
  | FirestoreGet (q : Query)
  | FirestoreDelete (id : string)
  | RtdbSet (key : string) (value : Obj)
  | RtdbOnce.

(** What the handlers cannot decide themselves.  Each effect takes one
    step; the functions below give, for the step at which it is asked,
    the clock reading in epoch milliseconds, the identifier a store
    generates, and whether a store request is rejected for a reason
    outside the handler (connectivity, permissions, validation).
    [toLowerCase] and [ToNumber] are the engine's operations of these
    names. *)
Record Env : Type := {
  toLowerCase : string → string;
  ToNumber : JsValue → JsNumber;
  clock : nat → Z;
  autoId : nat → string;
  pushKey : nat → string;
  unavailable : nat → bool
}.

Record World : Type := mkWorld {
  db : gmap string Obj;      (* collection 'tasks': document id to fields *)
  rtdb : gmap string Obj;    (* children of 'chats': key to value *)
  steps : nat;               (* effects performed so far *)
  log : list StoreCall       (* store requests sent so far, oldest first *)
}.

Definition M (A : Type) : Type := World → Outcome A * World.

#[global] Instance M_ret : MRet M := λ A a w, (Ok a, w).
#[global] Instance M_bind : MBind M := λ A B f m w,
  match m w with
  | (Ok a, w') => f a w'
  | (Throw e, w') => (Throw e, w')
  end.

Definition throw {A} (e : Error) : M A := λ w, (Throw e, w).

(** A computation that raises but leaves the world alone. *)
Definition lift {A} (o : Outcome A) : M A := λ w, (o, w).

Definition tick (w : World) : World :=
  mkWorld (db w) (rtdb w) (S (steps w)) (log w).

Definition record_call (c : StoreCall) (w : World) : World :=
  mkWorld (db w) (rtdb w) (S (steps w)) (log w ++ [c]).

Definition read_db : M (gmap string Obj) := λ w, (Ok (db w), w).

Definition write_db (docs : gmap string Obj) : M unit := λ w,
  (Ok tt, mkWorld docs (rtdb w) (steps w) (log w)).

Definition read_rtdb : M (gmap string Obj) := λ w, (Ok (rtdb w), w).

Definition write_rtdb (children : gmap string Obj) : M unit := λ w,
  (Ok tt, mkWorld (db w) children (steps w) (log w)).

(** ** The document store (Firestore) *)

(** Firestore orders strings by their UTF-8 bytes; a range filter on
    [title] only matches documents whose [title] is a string. *)
Definition title_in_range (lo hi : string) (doc : string * Obj) : bool :=
  match doc.2 !! "title" with
  | Some (JStr t) => String.leb lo t && String.leb t hi
  | _ => false
  end.

(** Result order: by document id; a range query orders by the filtered
    field first. *)
Definition by_id (a b : string * Obj) : Prop :=
  Is_true (String.leb a.1 b.1).

Definition by_title_then_id (a b : string * Obj) : Prop :=
  match a.2 !! "title", b.2 !! "title" with
  | Some (JStr x), Some (JStr y) =>
      match String.compare x y with
      | Lt => True
      | Eq => Is_true (String.leb a.1 b.1)
      | Gt => False
      end
  | _, _ => True
  end.

#[global] Instance by_id_dec a b : Decision (by_id a b).
Proof. unfold by_id. apply _. Defined.

#[global] Instance by_title_then_id_dec a b : Decision (by_title_then_id a b).
Proof.
  unfold by_title_then_id.
  destruct (a.2 !! "title") as [[| | | | x | | |] |]; try apply _;
  destruct (b.2 !! "title") as [[| | | | y | | |] |]; try apply _.
  destruct (String.compare x y); apply _.
Defined.

Definition run_query (q : Query) (docs : gmap string Obj)
  : list (string * Obj) :=
  match q with
  | Collection => merge_sort by_id (map_to_list docs)
  | TitleRange lo hi =>
      merge_sort by_title_then_id
        (List.filter (title_in_range lo hi) (map_to_list docs))
  end.

(** ** The realtime store *)

(** [orderByChild('timestamp')] orders the children by the value of
    their [timestamp] child: absent first, then false, true, numbers
    in ascending order, strings, objects; equal values by key.  The
    store holds no [undefined], [NaN], infinity or date; they are
    ranked with the absent value only to keep the order total. *)
Definition index_rank (v : JsValue) : nat :=
  match v with
  | JBool false => 1
  | JBool true => 2
  | JNum (Fin _) => 3
  | JStr _ => 4
  | JArr _ | JObj _ => 5
  | _ => 0
  end.

Definition index_compare (a b : JsValue) : comparison :=
  match a, b with
  | JNum (Fin x), JNum (Fin y) => Qcompare x y
  | JStr x, JStr y => String.compare x y
  | _, _ => Nat.compare (index_rank a) (index_rank b)
  end.

Definition by_timestamp (a b : string * Obj) : Prop :=
  match index_compare (prop a.2 "timestamp") (prop b.2 "timestamp") with
  | Lt => True
  | Eq => Is_true (String.leb a.1 b.1)
  | Gt => False
  end.

#[global] Instance by_timestamp_dec a b : Decision (by_timestamp a b).
Proof.
  unfold by_timestamp.
  destruct (index_compare _ _); apply _.
Defined.

Definition orderByChild_timestamp (children : gmap string Obj)
  : list (string * Obj) :=
  merge_sort by_timestamp (map_to_list children).

(** ** HTTP messages *)

Inductive Payload : Type :=
  | Message (message : string)
  | MessageId (message id : string)
  | MessageError (message : string) (error : Error)
  | TaskList (tasks : list Obj)
  | MessageList (messages : list Obj).

Record Response : Type := mkResponse {
  statusCode : Z;
  payload : Payload
}.

(** [req.query] of GET /list; a parameter is absent or a string. *)
Record ListQuery : Type := mkListQuery {
  sortBy : option string;
  order : option string;
  search : option string
}.

(** [if (v)] on a query parameter: absent and empty are falsy. *)
Definition given (v : option string) : bool :=
  match v with
  | Some s => negb (String.eqb s EmptyString)
  | None => false
  end.

(** [v === s] on a query parameter. *)
Definition param_is (v : option string) (s : string) : bool :=
  match v with
  | Some x => String.eqb x s
  | None => false
  end.

(** ** Array.prototype.sort *)

(** The sign the sort reads off a comparator's result; [NaN] counts as
    zero. *)
Definition sign (v : JsNumber) : comparison :=
  match v with
  | NaN => Eq
  | Inf negative => if negative then Lt else Gt
  | Fin q => Z.compare (Qnum q) 0
  end.

Section Sort.
Context {A : Type} (comparefn : A → A → Outcome JsNumber).

(** [x] was before every element of [sorted] in the array: it goes
    in front of the first element it does not compare greater than.
    An exception of the comparator ends the sort. *)
Fixpoint insert (x : A) (sorted : list A) : Outcome (list A) :=
  match sorted with
  | [] => Ok [x]
  | y :: rest =>
      v ← comparefn x y;
      match sign v with
      | Gt => r ← insert x rest; Ok (y :: r)
      | _ => Ok (x :: y :: rest)
      end
  end.

(** The sort is stable, and for a consistent comparator the standard
    fixes its result: the stable sorted arrangement, built here by
    insertion.  With fewer than two elements the comparator is not
    called. *)
Fixpoint sort (l : list A) : Outcome (list A) :=
  match l with
  | [] => Ok []
  | x :: rest => s ← sort rest; insert x s
  end.
End Sort.

(** ** The handlers *)

Section Handlers.
Variable env : Env.

(** [new Date()] *)
Definition new_Date : M JsValue := λ w,
  (Ok (JDate (clock env (steps w))), tick w).

(** [Date.now()] *)
Definition Date_now : M JsValue := λ w,
  (Ok (JNum (Fin (inject_Z (clock env (steps w))))), tick w).

(** Sending a request to a store: it is logged, and the store takes
    it or rejects it.  The result is the step at which it was sent. *)
Definition request (c : StoreCall) : M nat := λ w,
  (if unavailable env (steps w) then Throw Unavailable else Ok (steps w),
   record_call c w).

(** [db.collection('tasks').add(data)]: a new document under a
    generated id; the store refuses an id already in use. *)
Definition firestore_add (data : Obj) : M string :=
  n ← request (FirestoreAdd data);
  docs ← read_db;
  let id := autoId env n in
  match docs !! id with
  | Some _ => throw AlreadyExists
  | None => _ ← write_db (<[id := data]> docs); mret id
  end.

(** [db.collection('tasks').doc(id).update(data)]: the fields of
    [data] replace or extend those of the document, the others stay;
    a missing document is an error. *)
Definition firestore_update (id : string) (data : Obj) : M unit :=
  _ ← request (FirestoreUpdate id data);
  docs ← read_db;
  match docs !! id with
  | Some old => write_db (<[id := data ∪ old]> docs)
  | None => throw NotFound
  end.

(** [query.get()] *)
Definition firestore_get (q : Query) : M (list (string * Obj)) :=
  _ ← request (FirestoreGet q);
  docs ← read_db;
  mret (run_query q docs).

(** [db.collection('tasks').doc(id).delete()]: succeeds whether or
    not the document exists. *)
Definition firestore_delete (id : string) : M unit :=
  _ ← request (FirestoreDelete id);
  docs ← read_db;
  write_db (delete id docs).

(** [rtdb.ref('chats').push()]: a reference with a fresh key, made
    locally; nothing is sent. *)
Definition rtdb_push : M string := λ w,
  (Ok (pushKey env (steps w)), tick w).

(** [chatRef.set(value)] *)
Definition rtdb_set (key : string) (value : Obj) : M unit :=
  _ ← request (RtdbSet key value);
  children ← read_rtdb;
  write_rtdb (<[key := value]> children).

(** [rtdb.ref('chats').orderByChild('timestamp').once('value')] *)
Definition rtdb_once : M (list (string * Obj)) :=
  _ ← request RtdbOnce;
  children ← read_rtdb;
  mret (orderByChild_timestamp children).

(** [try { ... } catch (error) { res.status(500).send(...) }] *)
Definition try_catch (body : M Response) (w : World) : Response * World :=
  match body w with
  | (Ok r, w') => (r, w')
  | (Throw e, w') => (mkResponse 500 (MessageError "Server error" e), w')
  end.

(** POST /to-do-list *)
Definition post_to_do_list (body : Obj) : World → Response * World :=
  try_catch (
    let title := prop body "title" in
    let description := prop body "description" in
    if negb (truthy title) || negb (truthy description) then
      mret (mkResponse 400 (Message "Title and description are required"))
    else
      createdAt ← new_Date;
      updatedAt ← new_Date;
      let task : Obj :=
        {[ "title" := title;
           "description" := description;
           "status" := JBool false;
           "createdAt" := createdAt;
           "updatedAt" := updatedAt ]} in
      id ← firestore_add task;
      mret (mkResponse 201 (MessageId "Task added successfully" id))).

(** PUT /todo/:id *)
Definition put_todo (id : string) (body : Obj) : World → Response * World :=
  try_catch (
    let title := prop body "title" in
    let description := prop body "description" in
    let status := prop body "status" in
    if negb (truthy title) || negb (truthy description) then
      mret (mkResponse 400 (Message "Title and description are required"))
    else
      now ← new_Date;
      let updatedTask : Obj :=
        {[ "title" := title;
           "description" := description;
           "status" := js_or status (JBool false);
           "updatedAt" := now ]} in
      _ ← firestore_update id updatedTask;
      mret (mkResponse 200 (Message "Task updated successfully"))).

(** [{ id: key, ...data }]: a property [id] of [data] itself wins
    over the key. *)
Definition with_id (entry : string * Obj) : Obj :=
  entry.2 ∪ {[ "id" := JStr entry.1 ]}.

(** [v.toLowerCase()]: only a string has the method. *)
Definition lower (v : JsValue) : Outcome string :=
  match v with
  | JStr s => Ok (toLowerCase env s)
  | _ => Throw TypeError
  end.

(** The condition under which the list handler keeps a task. *)
Definition keeps (search : option string) (task : Obj) : Outcome bool :=
  if negb (given search) then Ok true
  else
    let term := toLowerCase env (default EmptyString search) in
    title ← lower (prop task "title");
    if includes title term then Ok true
    else
      description ← lower (prop task "description");
      Ok (includes description term).

(** [tasksSnapshot.forEach(doc => { ... tasks.push(task) })] *)
Fixpoint forEach_push (search : option string)
    (snapshot : list (string * Obj)) : Outcome (list Obj) :=
  match snapshot with
  | [] => Ok []
  | doc :: rest =>
      let task := with_id doc in
      keep ← keeps search task;
      tasks ← forEach_push search rest;
      Ok (if keep : bool then task :: tasks else tasks)
  end.

(** [createdAt.toDate()]: only a timestamp has the method. *)
Definition toDate (v : JsValue) : Outcome Z :=
  match v with
  | JDate ms => Ok ms
  | _ => Throw TypeError
  end.

(** The comparator of [sortBy === 'timestamp']. *)
Definition compare_createdAt (order : string) (a b : Obj)
  : Outcome JsNumber :=
  dateA ← toDate (prop a "createdAt");
  dateB ← toDate (prop b "createdAt");
  Ok (if String.eqb order "asc"
      then Fin (inject_Z (dateA - dateB))
      else Fin (inject_Z (dateB - dateA))).

(** The comparator of [sortBy === 'status']. *)
Definition compare_status (order : string) (a b : Obj)
  : Outcome JsNumber :=
  let x := prop a "status" in
  let y := prop b "status" in
  if strict_eq x y then Ok (Fin (inject_Z 0))
  else Ok (if String.eqb order "asc"
           then js_minus (ToNumber env x) (ToNumber env y)
           else js_minus (ToNumber env y) (ToNumber env x)).

(** The query the list handler sends. *)
Definition base_query (search : option string) : Query :=
  if given search
  then let term := default EmptyString search in
       TitleRange term (term ++ highSentinel)
  else Collection.

(** GET /list *)
Definition get_list (query : ListQuery) : World → Response * World :=
  try_catch (
    let order := default "desc" (order query) in
    tasksSnapshot ← firestore_get (base_query (search query));
    match tasksSnapshot with
    | [] => mret (mkResponse 404 (Message "No tasks found"))
    | _ :: _ =>
        tasks ← lift (forEach_push (search query) tasksSnapshot);
        tasks ← lift (
          if param_is (sortBy query) "timestamp"
          then sort (compare_createdAt order) tasks
          else if param_is (sortBy query) "status"
          then sort (compare_status order) tasks
          else Ok tasks);
        mret (mkResponse 200 (TaskList tasks))
    end).

(** DELETE /list/:id *)
Definition delete_list (id : string) : World → Response * World :=
  try_catch (
    _ ← firestore_delete id;
    mret (mkResponse 200 (Message "Task deleted successfully"))).

(** POST /chat *)
Definition post_chat (body : Obj) : World → Response * World :=
  try_catch (
    let username := prop body "username" in
    let message := prop body "message" in
    if negb (truthy username) || negb (truthy message) then
      mret (mkResponse 400 (Message "Username and message are required"))
    else
      key ← rtdb_push;
      timestamp ← Date_now;
      let newMessage : Obj :=
        {[ "username" := username;
           "message" := message;
           "timestamp" := timestamp ]} in
      _ ← rtdb_set key newMessage;
      mret (mkResponse 201 (MessageId "Message sent successfully" key))).

(** GET /chats *)
Definition get_chats : World → Response * World :=
  try_catch (
    snapshot ← rtdb_once;
    match snapshot with
    | [] => mret (mkResponse 404 (Message "No chat messages found"))
    | _ :: _ =>
        mret (mkResponse 200 (MessageList (with_id <$> snapshot)))
    end).

End Handlers.

(** ** Vocabulary of the statements *)

(** A required field as the handlers accept it: present and not falsy,
    so in particular not the empty string. *)
Definition non_empty (v : JsValue) : Prop :=
  truthy v = true ∧ v ≠ JUndefined ∧ v ≠ JNull ∧ v ≠ JStr EmptyString.


(** Every persisted task and chat message has its required fields. *)
Definition persisted_ok (w : World) : Prop :=
  map_Forall (λ _ data, non_empty (prop data "title") ∧
                        non_empty (prop data "description")) (db w) ∧
  map_Forall (λ _ value, non_empty (prop value "username") ∧
                         non_empty (prop value "message")) (rtdb w).

(** A stored document shaped as the task record of the data model. *)
Definition task_doc (data : Obj) : Prop :=
  (∃ s, data !! "title" = Some (JStr s)) ∧
  (∃ s, data !! "description" = Some (JStr s)) ∧
  (∃ ms, data !! "createdAt" = Some (JDate ms)).

(** [a] was created no later than [b]. *)
Definition createdAt_le (a b : Obj) : Prop :=
  ∃ x y, prop a "createdAt" = JDate x ∧ prop b "createdAt" = JDate y ∧ (x ≤ y)%Z.

(** [s] contains [term], case-insensitively. *)
Definition contains_ci (env : Env) (term : string) (v : JsValue) : Prop :=
  ∃ s, v = JStr s ∧ includes (toLowerCase env s) (toLowerCase env term) = true.

(** [a]'s status is false or [b]'s is true: false sorts before true. *)
Definition status_le (a b : Obj) : Prop :=
  ∃ x y, prop a "status" = JBool x ∧ prop b "status" = JBool y ∧
         implb x y = true.

(** [a]'s numeric timestamp is no later than [b]'s. *)
Definition timestamp_le (a b : Obj) : Prop :=
  ∃ x y, prop a "timestamp" = JNum (Fin x) ∧
         prop b "timestamp" = JNum (Fin y) ∧ Qle x y.

(** The list a response carries. *)
Definition tasks_of (r : Response) : list Obj :=
  match payload r with
  | TaskList tasks => tasks
  | _ => []
  end.

Definition messages_of (r : Response) : list Obj :=
  match payload r with
  | MessageList messages => messages
  | _ => []
  end.

(** The documents the store returns to the list handler's query. *)
Definition fetched (query : ListQuery) (w : World) : list (string * Obj) :=
  run_query (base_query (search query)) (db w).

(** ** Sample environments *)

Module Sample.

Definition is_byte (c : ascii) (n : nat) : bool :=
  Nat.eqb (nat_of_ascii c) n.

Definition lower_ascii (c : ascii) : ascii :=
  let n := nat_of_ascii c in
  if Nat.leb 65 n && Nat.leb n 90 then ascii_of_nat (n + 32) else c.

(** Lower-casing of ASCII letters and of the Greek capitals alpha
    (CE 91) and sigma (CE A3); a sigma that ends the string becomes
    the final sigma (CF 82), any other the medial one (CF 83).  It
    agrees with the engine on the strings used in this file. *)
Fixpoint lowerCase (s : string) : string :=
  match s with
  | EmptyString => EmptyString
  | String c rest =>
      match rest with
      | String d rest' =>
          if is_byte c 206 && is_byte d 145 then
            String c (String (ascii_of_nat 177) (lowerCase rest'))
          else if is_byte c 206 && is_byte d 163 then
            String (ascii_of_nat 207)
              (String (ascii_of_nat
                         match rest' with
                         | EmptyString => 130
                         | String _ _ => 131
                         end)
                 (lowerCase rest'))
          else String (lower_ascii c) (lowerCase rest)
      | EmptyString => String (lower_ascii c) EmptyString
      end
  end.

(** ToNumber as the engine has it on null, booleans and numbers, the
    only status values the samples compare. *)
Definition toNumber (v : JsValue) : JsNumber :=
  match v with
  | JNull => Fin (inject_Z 0)
  | JBool b => Fin (inject_Z (if b then 1 else 0))
  | JNum n => n
  | _ => NaN
  end.

Definition digit (n : nat) : string :=
  String (ascii_of_nat (48 + n mod 10)) EmptyString.

(** A clock that advances one millisecond per step, stores that
    answer every request. *)
Definition env : Env := {|
  toLowerCase := lowerCase;
  ToNumber := toNumber;
  clock := λ n, 1000 + Z.of_nat n;
  autoId := λ n, ("task" ++ digit n)%string;
  pushKey := λ n, ("chat" ++ digit n)%string;
  unavailable := λ _, false
|}.

(** The same with stores that reject every request. *)
Definition down : Env := {|
  toLowerCase := lowerCase;
  ToNumber := toNumber;
  clock := λ n, 1000 + Z.of_nat n;
  autoId := λ n, ("task" ++ digit n)%string;
  pushKey := λ n, ("chat" ++ digit n)%string;
  unavailable := λ _, true
|}.

Definition empty : World := mkWorld ∅ ∅ 0 [].

Definition task (title description : string) : Obj :=
  {[ "title" := JStr title; "description" := JStr description ]}.

Definition chat (username message : string) : Obj :=
  {[ "username" := JStr username; "message" := JStr message ]}.

(** Two tasks created one after the other. *)
Definition two_tasks : World :=
  (post_to_do_list env (task "Buy milk" "two litres")
     (post_to_do_list env (task "Call home" "after lunch") empty).2).2.

(** Two chat messages posted one after the other. *)
Definition two_chats : World :=
  (post_chat env (chat "bo" "hello")
     (post_chat env (chat "al" "hi") empty).2).2.

(** Greek capital alpha, capital sigma. *)
Definition Alpha : string :=
  String (ascii_of_nat 206) (String (ascii_of_nat 145) EmptyString).
Definition Sigma : string :=
  String (ascii_of_nat 206) (String (ascii_of_nat 163) EmptyString).

(** One task whose title is alpha, sigma, alpha. *)
Definition greek : World :=
  (post_to_do_list env (task (Alpha ++ Sigma ++ Alpha)%string "x") empty).2.

(** A task titled for milk, and one that only mentions it. *)
Definition milk : World :=
  (post_to_do_list env (task "Buy bread" "and MILK too")
     (post_to_do_list env (task "milk run" "weekly") empty).2).2.

Definition by_time (order : option string) : ListQuery :=
  mkListQuery (Some "timestamp") order None.

Definition searching (term : string) : ListQuery :=
  mkListQuery None None (Some term).

Definition by_status (order : option string) : ListQuery :=
  mkListQuery (Some "status") order None.

(** The two tasks, the older one since marked done. *)
Definition one_done : World :=
  (put_todo env "task2"
     (<["status" := JBool true]> (task "Call home" "after lunch"))
     two_tasks).2.

(** Two documents written by other means, without createdAt. *)
Definition legacy : World :=
  mkWorld {[ "a" := task "Old" "one"; "b" := task "Older" "two" ]} ∅ 0 [].

(** One such document alone. *)
Definition lone : World := mkWorld {[ "a" := task "Old" "one" ]} ∅ 0 [].

(** A chat message stored with an id field of its own. *)
Definition shadowed : World :=
  mkWorld ∅ {[ "k1" := <["id" := JStr "mine"]> (chat "al" "hi") ]} 0 [].

End Sample.

(** * Properties *)

(** ** Values *)

Lemma truthy_non_empty (v : JsValue) : truthy v = true → non_empty v.
Proof.
  intros H. repeat split; trivial; intros ->; discriminate H.
Qed.

Lemma prop_lookup (o : Obj) (k : string) (v : JsValue) :
  o !! k = Some v → prop o k = v.
Proof. unfold prop. by intros ->. Qed.

(** ** Running a handler *)

Ltac run :=
  cbv beta iota zeta delta
    [try_catch mbind mret M_bind M_ret Outcome_bind Outcome_ret throw lift
     new_Date Date_now request firestore_add firestore_update firestore_get
     firestore_delete rtdb_push rtdb_set rtdb_once read_db write_db
     read_rtdb write_rtdb tick record_call];
  cbn [db rtdb steps log fst snd negb orb].

Section Runs.
Variable env : Env.

Lemma post_to_do_list_rejects (body : Obj) (w : World) :
  truthy (prop body "title") = false ∨
  truthy (prop body "description") = false →
  post_to_do_list env body w =
    (mkResponse 400 (Message "Title and description are required"), w).
Proof.
  intros H. unfold post_to_do_list. run.
  destruct H as [-> | ->]; [| rewrite orb_true_r]; reflexivity.
Qed.

Lemma post_to_do_list_accepts (body : Obj) (w : World) :
  truthy (prop body "title") = true →
  truthy (prop body "description") = true →
  let n := steps w in
  let task : Obj :=
    {[ "title" := prop body "title";
       "description" := prop body "description";
       "status" := JBool false;
       "createdAt" := JDate (clock env n);
       "updatedAt" := JDate (clock env (S n)) ]} in
  let id := autoId env (S (S n)) in
  let sent := log w ++ [FirestoreAdd task] in
  post_to_do_list env body w =
    if unavailable env (S (S n)) then
      (mkResponse 500 (MessageError "Server error" Unavailable),
       mkWorld (db w) (rtdb w) (S (S (S n))) sent)
    else
      match db w !! id with
      | Some _ =>
          (mkResponse 500 (MessageError "Server error" AlreadyExists),
           mkWorld (db w) (rtdb w) (S (S (S n))) sent)
      | None =>
          (mkResponse 201 (MessageId "Task added successfully" id),
           mkWorld (<[id := task]> (db w)) (rtdb w) (S (S (S n))) sent)
      end.
Proof.
  intros Ht Hd. unfold post_to_do_list. run. rewrite Ht, Hd. run.
  destruct (unavailable env _); run; [reflexivity |].
  destruct (db w !! _); reflexivity.
Qed.

Lemma put_todo_rejects (id : string) (body : Obj) (w : World) :
  truthy (prop body "title") = false ∨
  truthy (prop body "description") = false →
  put_todo env id body w =
    (mkResponse 400 (Message "Title and description are required"), w).
Proof.
  intros H. unfold put_todo. run.
  destruct H as [-> | ->]; [| rewrite orb_true_r]; reflexivity.
Qed.

Lemma put_todo_accepts (id : string) (body : Obj) (w : World) :
  truthy (prop body "title") = true →
  truthy (prop body "description") = true →
  let n := steps w in
  let updatedTask : Obj :=
    {[ "title" := prop body "title";
       "description" := prop body "description";
       "status" := js_or (prop body "status") (JBool false);
       "updatedAt" := JDate (clock env n) ]} in
  let sent := log w ++ [FirestoreUpdate id updatedTask] in
  put_todo env id body w =
    if unavailable env (S n) then
      (mkResponse 500 (MessageError "Server error" Unavailable),
       mkWorld (db w) (rtdb w) (S (S n)) sent)
    else
      match db w !! id with
      | Some old =>
          (mkResponse 200 (Message "Task updated successfully"),
           mkWorld (<[id := updatedTask ∪ old]> (db w)) (rtdb w)
             (S (S n)) sent)
      | None =>
          (mkResponse 500 (MessageError "Server error" NotFound),
           mkWorld (db w) (rtdb w) (S (S n)) sent)
      end.
Proof.
  intros Ht Hd. unfold put_todo. run. rewrite Ht, Hd. run.
  destruct (unavailable env _); run; [reflexivity |].
  destruct (db w !! _); reflexivity.
Qed.

Lemma post_chat_rejects (body : Obj) (w : World) :
  truthy (prop body "username") = false ∨
  truthy (prop body "message") = false →
  post_chat env body w =
    (mkResponse 400 (Message "Username and message are required"), w).
Proof.
  intros H. unfold post_chat. run.
  destruct H as [-> | ->]; [| rewrite orb_true_r]; reflexivity.
Qed.

Lemma post_chat_accepts (body : Obj) (w : World) :
  truthy (prop body "username") = true →
  truthy (prop body "message") = true →
  let n := steps w in
  let key := pushKey env n in
  let newMessage : Obj :=
    {[ "username" := prop body "username";
       "message" := prop body "message";
       "timestamp" := JNum (Fin (inject_Z (clock env (S n)))) ]} in
  let sent := log w ++ [RtdbSet key newMessage] in
  post_chat env body w =
    if unavailable env (S (S n)) then
      (mkResponse 500 (MessageError "Server error" Unavailable),
       mkWorld (db w) (rtdb w) (S (S (S n))) sent)
    else
      (mkResponse 201 (MessageId "Message sent successfully" key),
       mkWorld (db w) (<[key := newMessage]> (rtdb w)) (S (S (S n))) sent).
Proof.
  intros Hu Hm. unfold post_chat. run. rewrite Hu, Hm. run.
  destruct (unavailable env _); reflexivity.
Qed.

Lemma delete_list_runs (id : string) (w : World) :
  delete_list env id w =
    if unavailable env (steps w) then
      (mkResponse 500 (MessageError "Server error" Unavailable),
       mkWorld (db w) (rtdb w) (S (steps w)) (log w ++ [FirestoreDelete id]))
    else
      (mkResponse 200 (Message "Task deleted successfully"),
       mkWorld (delete id (db w)) (rtdb w) (S (steps w))
         (log w ++ [FirestoreDelete id])).
Proof.
  unfold delete_list. run. destruct (unavailable env _); reflexivity.
Qed.

Lemma get_chats_runs (w : World) :
  (get_chats env w).1 =
    if unavailable env (steps w) then
      mkResponse 500 (MessageError "Server error" Unavailable)
    else
      match orderByChild_timestamp (rtdb w) with
      | [] => mkResponse 404 (Message "No chat messages found")
      | snapshot => mkResponse 200 (MessageList (with_id <$> snapshot))
      end.
Proof.
  unfold get_chats. run. destruct (unavailable env _); run; [reflexivity |].
  destruct (orderByChild_timestamp _); reflexivity.
Qed.

(** What the list handler answers once the store has returned. *)
Lemma get_list_runs (query : ListQuery) (w : World) :
  (get_list env query w).1 =
    if unavailable env (steps w) then
      mkResponse 500 (MessageError "Server error" Unavailable)
    else
      match fetched query w with
      | [] => mkResponse 404 (Message "No tasks found")
      | snapshot =>
          match
            kept ← forEach_push env (search query) snapshot;
            if param_is (sortBy query) "timestamp"
            then sort (compare_createdAt (default "desc" (order query))) kept
            else if param_is (sortBy query) "status"
            then sort (compare_status env (default "desc" (order query))) kept
            else Ok kept
          with
          | Ok tasks => mkResponse 200 (TaskList tasks)
          | Throw e => mkResponse 500 (MessageError "Server error" e)
          end
      end.
Proof.
  unfold get_list, fetched. run.
  destruct (unavailable env _); run; [reflexivity |].
  destruct (run_query _ _) as [| doc rest]; [reflexivity |].
  destruct (forEach_push _ _ _) as [kept | e]; run; [| reflexivity].
  destruct (param_is _ "timestamp").
  - destruct (sort _ _); reflexivity.
  - destruct (param_is _ "status"); [| reflexivity].
    destruct (sort _ _); reflexivity.
Qed.
End Runs.

(** ** Creating and updating tasks, posting messages *)

(** C6: a create request whose title or description is missing or falsy
    is answered 400 and touches nothing: the world after the handler is
    the world before it, so no request (no [add] in particular) has been
    sent to the store. *)
Theorem post_to_do_list_invalid (env : Env) (body : Obj) (w : World) :
  truthy (prop body "title") = false ∨
  truthy (prop body "description") = false →
  statusCode (post_to_do_list env body w).1 = 400 ∧
  (post_to_do_list env body w).2 = w ∧
  log (post_to_do_list env body w).2 = log w ∧
  db (post_to_do_list env body w).2 = db w.
Proof.
  intros H. rewrite (post_to_do_list_rejects env body w H). by repeat split.
Qed.

Lemma post_to_do_list_invalid_witness :
  statusCode (post_to_do_list Sample.env (Sample.task "A" EmptyString)
                Sample.two_tasks).1 = 400 ∧
  log (post_to_do_list Sample.env (Sample.task "A" EmptyString)
         Sample.two_tasks).2 = log Sample.two_tasks.
Proof.
  destruct (post_to_do_list_invalid Sample.env
              (Sample.task "A" EmptyString) Sample.two_tasks)
    as (Hcode & _ & Hlog & _).
  - right. reflexivity.
  - split; [exact Hcode | exact Hlog].
Defined.

(** C1: an update whose body has a title and a description sends the
    store exactly the fields title, description, status and updatedAt;
    status is false when the body has none, updatedAt is the clock
    reading the handler takes, and no document's createdAt changes.
    When the store takes the update, the response is 200 and the
    document is the old one overwritten by these four fields. *)
Theorem put_todo_overwrites (env : Env) (id : string) (body : Obj)
    (w : World) :
  truthy (prop body "title") = true →
  truthy (prop body "description") = true →
  ∃ updatedTask : Obj,
    log (put_todo env id body w).2 =
      log w ++ [FirestoreUpdate id updatedTask] ∧
    dom updatedTask = {[ "title"; "description"; "status"; "updatedAt" ]} ∧
    updatedTask !! "title" = Some (prop body "title") ∧
    updatedTask !! "description" = Some (prop body "description") ∧
    (body !! "status" = None → updatedTask !! "status" = Some (JBool false)) ∧
    updatedTask !! "updatedAt" = Some (JDate (clock env (steps w))) ∧
    (∀ k, db (put_todo env id body w).2 !! k ≫= (λ d, d !! "createdAt") =
          db w !! k ≫= (λ d, d !! "createdAt")) ∧
    (∀ old, unavailable env (S (steps w)) = false → db w !! id = Some old →
       (put_todo env id body w).1 =
         mkResponse 200 (Message "Task updated successfully") ∧
       db (put_todo env id body w).2 = <[id := updatedTask ∪ old]> (db w)).
Proof.
  intros Ht Hd. rewrite (put_todo_accepts env id body w Ht Hd). cbv zeta.
  eexists. split; [| split; [| split; [| split; [| split; [| split; [| split]]]]]].
  - destruct (unavailable env _); [reflexivity |].
    destruct (db w !! id); reflexivity.
  - rewrite !dom_insert_L, dom_singleton_L. set_solver.
  - by simplify_map_eq.
  - by simplify_map_eq.
  - intros Hs. simplify_map_eq. unfold prop, js_or. by rewrite Hs.
  - by simplify_map_eq.
  - intros k. destruct (unavailable env _); [reflexivity |].
    destruct (db w !! id) as [old |] eqn:Hold; [| reflexivity].
    cbn [db snd]. destruct (decide (k = id)) as [-> | Hk].
    + rewrite lookup_insert_eq, Hold. cbn.
      rewrite lookup_union_r; [reflexivity |]. by simplify_map_eq.
    + by rewrite lookup_insert_ne.
  - intros old -> ->. by split.
Qed.

Lemma put_todo_overwrites_witness :
  ∃ updatedTask : Obj,
    log (put_todo Sample.env "task2" (Sample.task "Call home" "tonight")
           Sample.two_tasks).2 =
      log Sample.two_tasks ++ [FirestoreUpdate "task2" updatedTask] ∧
    updatedTask !! "status" = Some (JBool false).
Proof.
  destruct (put_todo_overwrites Sample.env "task2"
              (Sample.task "Call home" "tonight") Sample.two_tasks)
    as (rec & Hlog & _ & _ & _ & Hstatus & _).
  - reflexivity.
  - reflexivity.
  - exists rec. split; [exact Hlog | apply Hstatus; reflexivity].
Defined.

(** C10: the status an accepted update sends is [status || false]: a
    truthy value of any type goes through as it is, and a falsy one
    (false, 0, the empty string, null) becomes the boolean false, as
    does an absent one.  When the store takes the update, that value
    is the document's status. *)
Theorem put_todo_status (env : Env) (id : string) (body : Obj) (w : World) :
  truthy (prop body "title") = true →
  truthy (prop body "description") = true →
  ∃ updatedTask : Obj,
    log (put_todo env id body w).2 =
      log w ++ [FirestoreUpdate id updatedTask] ∧
    updatedTask !! "status" = Some (js_or (prop body "status") (JBool false)) ∧
    (truthy (prop body "status") = true →
       updatedTask !! "status" = Some (prop body "status")) ∧
    (∀ v, v ∈ [JBool false; JNum (Fin (inject_Z 0)); JStr EmptyString; JNull] →
       body !! "status" = Some v →
       updatedTask !! "status" = Some (JBool false)) ∧
    (body !! "status" = None → updatedTask !! "status" = Some (JBool false)) ∧
    (∀ old, unavailable env (S (steps w)) = false → db w !! id = Some old →
       ∃ stored, db (put_todo env id body w).2 !! id = Some stored ∧
         stored !! "status" = Some (js_or (prop body "status") (JBool false))).
Proof.
  intros Ht Hd. rewrite (put_todo_accepts env id body w Ht Hd). cbv zeta.
  eexists. split; [| split; [| split; [| split; [| split]]]].
  - destruct (unavailable env _); [reflexivity |].
    destruct (db w !! id); reflexivity.
  - by simplify_map_eq.
  - intros Hs. simplify_map_eq. unfold js_or. by rewrite Hs.
  - intros v Hv Hs. simplify_map_eq. rewrite (prop_lookup body "status" v Hs).
    rewrite !elem_of_cons in Hv. rewrite elem_of_nil in Hv.
    by destruct Hv as [-> | [-> | [-> | [-> | []]]]].
  - intros Hs. simplify_map_eq. unfold prop, js_or. by rewrite Hs.
  - intros old -> ->. cbn [db snd]. eexists. split.
    + apply lookup_insert_eq.
    + rewrite lookup_union_l'; by simplify_map_eq.
Qed.

Lemma put_todo_status_witness :
  ∃ updatedTask : Obj,
    log (put_todo Sample.env "task2"
           (<["status" := JStr "done"]> (Sample.task "Call home" "tonight"))
           Sample.two_tasks).2 =
      log Sample.two_tasks ++ [FirestoreUpdate "task2" updatedTask] ∧
    updatedTask !! "status" = Some (JStr "done").
Proof.
  destruct (put_todo_status Sample.env "task2"
              (<["status" := JStr "done"]> (Sample.task "Call home" "tonight"))
              Sample.two_tasks)
    as (rec & Hlog & _ & Hstatus & _).
  - reflexivity.
  - reflexivity.
  - exists rec. split; [exact Hlog | apply Hstatus; reflexivity].
Defined.

(** C3, as the code has it: when the store takes the new document, a
    create request with a title and a description is answered 201 with
    the identifier the store assigned (not empty when the store's is
    not), and the record inserted has status false, createdAt the
    clock reading taken first and updatedAt the reading taken next;
    the two are equal when the clock reads the same both times. *)
Theorem post_to_do_list_creates (env : Env) (body : Obj) (w : World) :
  truthy (prop body "title") = true →
  truthy (prop body "description") = true →
  unavailable env (S (S (steps w))) = false →
  db w !! autoId env (S (S (steps w))) = None →
  autoId env (S (S (steps w))) ≠ EmptyString →
  ∃ (id : string) (task : Obj),
    (post_to_do_list env body w).1 =
      mkResponse 201 (MessageId "Task added successfully" id) ∧
    id = autoId env (S (S (steps w))) ∧
    id ≠ EmptyString ∧
    log (post_to_do_list env body w).2 = log w ++ [FirestoreAdd task] ∧
    db (post_to_do_list env body w).2 = <[id := task]> (db w) ∧
    dom task =
      {[ "title"; "description"; "status"; "createdAt"; "updatedAt" ]} ∧
    task !! "title" = Some (prop body "title") ∧
    task !! "description" = Some (prop body "description") ∧
    task !! "status" = Some (JBool false) ∧
    task !! "createdAt" = Some (JDate (clock env (steps w))) ∧
    task !! "updatedAt" = Some (JDate (clock env (S (steps w)))) ∧
    (clock env (steps w) = clock env (S (steps w)) →
       task !! "createdAt" = task !! "updatedAt").
Proof.
  intros Ht Hd Hup Hfresh Hid.
  rewrite (post_to_do_list_accepts env body w Ht Hd). cbv zeta.
  rewrite Hup, Hfresh. cbn [fst snd db log].
  eexists _, _. split; [reflexivity |]. split; [reflexivity |].
  split; [exact Hid |]. split; [reflexivity |]. split; [reflexivity |].
  split; [rewrite !dom_insert_L, dom_singleton_L; set_solver |].
  repeat split; try by simplify_map_eq.
  intros Hclock. simplify_map_eq. by rewrite Hclock.
Qed.

Lemma post_to_do_list_creates_witness :
  ∃ (id : string) (task : Obj),
    (post_to_do_list Sample.env (Sample.task "A" "B") Sample.empty).1 =
      mkResponse 201 (MessageId "Task added successfully" id) ∧
    id ≠ EmptyString ∧
    task !! "status" = Some (JBool false).
Proof.
  destruct (post_to_do_list_creates Sample.env (Sample.task "A" "B")
              Sample.empty)
    as (id & task & Hresp & _ & Hid & _ & _ & _ & _ & _ & Hstatus & _).
  - reflexivity.
  - reflexivity.
  - reflexivity.
  - reflexivity.
  - discriminate.
  - exists id, task. split; [exact Hresp | split; [exact Hid | exact Hstatus]].
Defined.

(** C3 as stated fails: the handler reads the clock once for createdAt
    and once more for updatedAt, and a clock that moves in between
    gives a record whose two fields differ. *)
Lemma post_to_do_list_clock_moves :
  (post_to_do_list Sample.env (Sample.task "A" "B") Sample.empty).1 =
    mkResponse 201 (MessageId "Task added successfully" "task2") ∧
  ∃ task : Obj,
    log (post_to_do_list Sample.env (Sample.task "A" "B") Sample.empty).2 =
      [FirestoreAdd task] ∧
    db (post_to_do_list Sample.env (Sample.task "A" "B") Sample.empty).2
      !! "task2" = Some task ∧
    task !! "createdAt" = Some (JDate 1000) ∧
    task !! "updatedAt" = Some (JDate 1001) ∧
    task !! "createdAt" ≠ task !! "updatedAt".
Proof.
  split; [reflexivity |].
  eexists. split; [reflexivity |].
  split; [reflexivity |]. split; [reflexivity |]. split; [reflexivity |].
  discriminate.
Qed.



(** ** Array.prototype.sort *)

Ltac outcome H :=
  cbn [mbind Outcome_bind mret Outcome_ret] in H.

Section SortFacts.
Context {A : Type} (comparefn : A → A → Outcome JsNumber).

Lemma insert_Permutation (x : A) (l l' : list A) :
  insert comparefn x l = Ok l' → x :: l ≡ₚ l'.
Proof.
  revert l'. induction l as [| y rest IH]; intros l' H; cbn [insert] in H.
  - by injection H as <-.
  - destruct (comparefn x y) as [v |]; outcome H; [| discriminate].
    destruct (sign v).
    1, 2: by injection H as <-.
    destruct (insert comparefn x rest) as [r |]; outcome H; [| discriminate].
    injection H as <-. rewrite <- (IH r eq_refl). apply perm_swap.
Qed.

Lemma sort_Permutation (l l' : list A) :
  sort comparefn l = Ok l' → l ≡ₚ l'.
Proof.
  revert l'. induction l as [| x rest IH]; intros l' H; cbn [sort] in H.
  - by injection H as <-.
  - destruct (sort comparefn rest) as [s |]; outcome H; [| discriminate].
    rewrite (IH s eq_refl). by apply insert_Permutation.
Qed.

(** The sort returns when the comparator does. *)
Lemma insert_returns (x : A) (l : list A) :
  (∀ y, y ∈ l → ∃ v, comparefn x y = Ok v) →
  ∃ l', insert comparefn x l = Ok l'.
Proof.
  induction l as [| y rest IH]; intros Hc; cbn [insert].
  - by eexists.
  - destruct (Hc y) as [v ->]; [left |].
    cbn [mbind Outcome_bind]. destruct (sign v); try by eexists.
    destruct IH as [r ->]; [| by eexists].
    intros z Hz. apply Hc. by right.
Qed.

Lemma sort_returns (l : list A) :
  (∀ x y, x ∈ l → y ∈ l → ∃ v, comparefn x y = Ok v) →
  ∃ l', sort comparefn l = Ok l'.
Proof.
  induction l as [| x rest IH]; intros Hc; cbn [sort].
  - by eexists.
  - destruct IH as [s Hs].
    { intros a b Ha Hb. apply Hc; by right. }
    rewrite Hs. cbn [mbind Outcome_bind]. apply insert_returns.
    intros y Hy. apply Hc; [left |].
    right. by rewrite (sort_Permutation rest s Hs).
Qed.

Section Ordered.
Variable R : relation A.
Hypothesis not_after : ∀ x y v,
  comparefn x y = Ok v → sign v ≠ Gt → R x y.
Hypothesis after : ∀ x y v,
  comparefn x y = Ok v → sign v = Gt → R y x.
Hypothesis R_trans : Transitive R.

Lemma insert_sorted (x : A) (l l' : list A) :
  StronglySorted R l → insert comparefn x l = Ok l' →
  StronglySorted R l'.
Proof.
  revert l'. induction l as [| y rest IH]; intros l' Hl H; cbn [insert] in H.
  - injection H as <-. repeat constructor.
  - destruct (comparefn x y) as [v |] eqn:Hc; outcome H; [| discriminate].
    apply StronglySorted_inv in Hl as [Hrest Hy].
    assert (Hfront : sign v ≠ Gt → StronglySorted R (x :: y :: rest)).
    { intros Hs. pose proof (not_after x y v Hc Hs) as Hxy.
      constructor; [by constructor |].
      constructor; [exact Hxy |].
      eapply Forall_impl; [exact Hy |]. intros z Hyz. by transitivity y. }
    destruct (sign v) eqn:Hs.
    1, 2: injection H as <-; by apply Hfront.
    destruct (insert comparefn x rest) as [r |] eqn:Hr; outcome H;
      [| discriminate].
    injection H as <-. constructor; [by apply IH |].
    rewrite <- (insert_Permutation x rest r Hr).
    constructor; [by eapply after | exact Hy].
Qed.

Lemma sort_sorted (l l' : list A) :
  sort comparefn l = Ok l' → StronglySorted R l'.
Proof.
  revert l'. induction l as [| x rest IH]; intros l' H; cbn [sort] in H.
  - injection H as <-. constructor.
  - destruct (sort comparefn rest) as [s |]; outcome H; [| discriminate].
    eapply insert_sorted; [| exact H]. by apply IH.
Qed.
End Ordered.
End SortFacts.

(** ** Listing tasks *)

Lemma with_id_lookup (entry : string * Obj) (k : string) :
  k ≠ "id" → with_id entry !! k = entry.2 !! k.
Proof.
  intros Hk. unfold with_id. apply lookup_union_l.
  by rewrite lookup_singleton_ne.
Qed.

Lemma with_id_prop (entry : string * Obj) (k : string) :
  k ≠ "id" → prop (with_id entry) k = prop entry.2 k.
Proof. intros Hk. unfold prop. by rewrite with_id_lookup. Qed.

Lemma with_id_fresh (entry : string * Obj) :
  entry.2 !! "id" = None → with_id entry !! "id" = Some (JStr entry.1).
Proof.
  intros Hid. unfold with_id. rewrite lookup_union_r by done.
  apply lookup_singleton_eq.
Qed.

Lemma run_query_elem (q : Query) (docs : gmap string Obj)
    (entry : string * Obj) :
  entry ∈ run_query q docs →
  docs !! entry.1 = Some entry.2 ∧
  match q with
  | Collection => True
  | TitleRange lo hi => title_in_range lo hi entry = true
  end.
Proof.
  destruct entry as [id data]. destruct q as [| lo hi]; cbn [run_query fst snd].
  - rewrite merge_sort_Permutation. by rewrite elem_of_map_to_list.
  - rewrite merge_sort_Permutation, list_elem_of_In, filter_In.
    rewrite <- list_elem_of_In, elem_of_map_to_list. tauto.
Qed.

Section Listing.
Variable env : Env.

Lemma keeps_all (search : option string) (task : Obj) :
  given search = false → keeps env search task = Ok true.
Proof. intros H. unfold keeps. by rewrite H. Qed.

Lemma keeps_matches (search : option string) (task : Obj) :
  given search = true → keeps env search task = Ok true →
  contains_ci env (default EmptyString search) (prop task "title") ∨
  contains_ci env (default EmptyString search) (prop task "description").
Proof.
  intros Hgiven. unfold keeps, contains_ci. rewrite Hgiven. cbn [negb].
  destruct (prop task "title") as [| | | | title | | |];
    cbn [lower mbind Outcome_bind]; try discriminate.
  destruct (includes (toLowerCase env title) _) eqn:Ht; [eauto |].
  destruct (prop task "description") as [| | | | description | | |];
    cbn [lower mbind Outcome_bind]; try discriminate.
  intros [= Hd]. eauto.
Qed.

Lemma forEach_push_kept (search : option string)
    (snapshot : list (string * Obj)) (tasks : list Obj) :
  forEach_push env search snapshot = Ok tasks →
  tasks `sublist_of` (with_id <$> snapshot) ∧
  Forall (λ task, keeps env search task = Ok true) tasks.
Proof.
  revert tasks. induction snapshot as [| doc rest IH]; intros tasks H;
    cbn [forEach_push] in H.
  - injection H as <-. by split.
  - destruct (keeps env search (with_id doc)) as [keep |] eqn:Hk;
      outcome H; [| discriminate].
    destruct (forEach_push env search rest) as [kept |]; outcome H;
      [| discriminate].
    destruct (IH kept eq_refl) as [Hsub Hall]. injection H as <-.
    rewrite fmap_cons. destruct keep.
    + split; [by apply sublist_skip | by constructor].
    + split; [by apply sublist_cons | done].
Qed.

Lemma forEach_push_all (search : option string)
    (snapshot : list (string * Obj)) :
  given search = false →
  forEach_push env search snapshot = Ok (with_id <$> snapshot).
Proof.
  intros Hgiven. induction snapshot as [| doc rest IH]; [done |].
  cbn [forEach_push]. rewrite keeps_all by done. by rewrite IH.
Qed.

Lemma forEach_push_returns (search : option string)
    (snapshot : list (string * Obj)) :
  Forall (λ doc, task_doc doc.2) snapshot →
  ∃ tasks, forEach_push env search snapshot = Ok tasks.
Proof.
  induction 1 as [| doc rest Hdoc _ [kept IH]]; [by eexists |].
  cbn [forEach_push]. rewrite IH.
  destruct Hdoc as ([t Ht] & [d Hd] & _).
  unfold keeps. rewrite !with_id_prop by done.
  rewrite (prop_lookup _ _ _ Ht), (prop_lookup _ _ _ Hd).
  destruct (negb (given search)); cbn [lower mbind Outcome_bind];
    [by eexists |].
  destruct (includes _ _); by eexists.
Qed.
End Listing.

#[global] Instance createdAt_le_trans : Transitive createdAt_le.
Proof.
  intros a b c (x & y & Ha & Hb & Hxy) (y' & z & Hb' & Hc & Hyz).
  rewrite Hb in Hb'. injection Hb' as <-. exists x, z. repeat split; try done.
  lia.
Qed.

Lemma compare_createdAt_inv (order : string) (a b : Obj) (v : JsNumber) :
  compare_createdAt order a b = Ok v →
  ∃ x y, prop a "createdAt" = JDate x ∧ prop b "createdAt" = JDate y ∧
    sign v = if String.eqb order "asc" then (x - y ?= 0)%Z else (y - x ?= 0)%Z.
Proof.
  unfold compare_createdAt.
  destruct (prop a "createdAt") as [| | | | | x | |];
    cbn [toDate mbind Outcome_bind]; try discriminate.
  destruct (prop b "createdAt") as [| | | | | y | |];
    cbn [toDate mbind Outcome_bind]; try discriminate.
  intros [= <-]. exists x, y. repeat split. by destruct (String.eqb order "asc").
Qed.

Lemma sort_createdAt_asc (l l' : list Obj) :
  sort (compare_createdAt "asc") l = Ok l' → StronglySorted createdAt_le l'.
Proof.
  apply sort_sorted; [| | apply _].
  - intros a b v Hc Hs.
    destruct (compare_createdAt_inv _ _ _ _ Hc) as (x & y & Ha & Hb & Hv).
    cbn in Hv. rewrite Hv in Hs. exists x, y. repeat split; try done.
    apply (proj1 (Z.compare_le_iff _ _)) in Hs. lia.
  - intros a b v Hc Hs.
    destruct (compare_createdAt_inv _ _ _ _ Hc) as (x & y & Ha & Hb & Hv).
    cbn in Hv. rewrite Hv in Hs. exists y, x. repeat split; try done.
    apply (proj1 (Z.compare_gt_iff _ _)) in Hs. lia.
Qed.

Lemma sort_createdAt_desc (order : string) (l l' : list Obj) :
  order ≠ "asc" →
  sort (compare_createdAt order) l = Ok l' →
  StronglySorted (flip createdAt_le) l'.
Proof.
  intros Horder. apply String.eqb_neq in Horder.
  apply sort_sorted.
  - intros a b v Hc Hs.
    destruct (compare_createdAt_inv _ _ _ _ Hc) as (x & y & Ha & Hb & Hv).
    rewrite Horder in Hv. rewrite Hv in Hs. exists y, x. repeat split; try done.
    apply (proj1 (Z.compare_le_iff _ _)) in Hs. lia.
  - intros a b v Hc Hs.
    destruct (compare_createdAt_inv _ _ _ _ Hc) as (x & y & Ha & Hb & Hv).
    rewrite Horder in Hv. rewrite Hv in Hs. exists x, y. repeat split; try done.
    apply (proj1 (Z.compare_gt_iff _ _)) in Hs. lia.
  - intros a b c Hab Hbc. unfold flip in *. by transitivity b.
Qed.

Section ListHandler.
Variable env : Env.

(** What a 200 answer of the list handler says about the run. *)
Lemma get_list_200 (query : ListQuery) (w : World) (tasks : list Obj) :
  (get_list env query w).1 = mkResponse 200 (TaskList tasks) →
  unavailable env (steps w) = false ∧
  fetched query w ≠ [] ∧
  ∃ kept,
    forEach_push env (search query) (fetched query w) = Ok kept ∧
    kept ≡ₚ tasks ∧
    (if param_is (sortBy query) "timestamp"
     then sort (compare_createdAt (default "desc" (order query))) kept
     else if param_is (sortBy query) "status"
     then sort (compare_status env (default "desc" (order query))) kept
     else Ok kept) = Ok tasks.
Proof.
  rewrite get_list_runs.
  destruct (unavailable env _); [discriminate |].
  destruct (fetched query w) as [| doc rest]; [discriminate |].
  destruct (forEach_push _ _ _) as [kept |]; cbn [mbind Outcome_bind];
    [| discriminate].
  intros H. split; [done |]. split; [done |]. exists kept.
  split; [done |].
  destruct (param_is _ "timestamp").
  { destruct (sort _ kept) as [s |] eqn:Hs; [| discriminate].
    injection H as <-. split; [by eapply sort_Permutation | done]. }
  destruct (param_is _ "status").
  { destruct (sort _ kept) as [s |] eqn:Hs; [| discriminate].
    injection H as <-. split; [by eapply sort_Permutation | done]. }
  injection H as <-. by split.
Qed.

(** The list handler answers 200 when the store answers with task
    records. *)
Lemma get_list_returns (query : ListQuery) (w : World) :
  unavailable env (steps w) = false →
  fetched query w ≠ [] →
  Forall (λ doc, task_doc doc.2) (fetched query w) →
  ∃ tasks, (get_list env query w).1 = mkResponse 200 (TaskList tasks).
Proof.
  intros Hup Hne Hdocs. rewrite get_list_runs, Hup.
  destruct (forEach_push_returns env (search query) _ Hdocs) as [kept Hk].
  destruct (fetched query w) as [| doc rest] eqn:Hf; [done |].
  rewrite Hk. cbn [mbind Outcome_bind].
  assert (Hdates : ∀ t, t ∈ kept → ∃ ms, prop t "createdAt" = JDate ms).
  { intros t Ht. destruct (forEach_push_kept _ _ _ _ Hk) as [Hsub _].
    apply (sublist_subseteq _ _ Hsub), list_elem_of_fmap in Ht
      as (d & -> & Hd).
    rewrite Forall_forall in Hdocs. destruct (Hdocs d Hd) as (_ & _ & ms & Hms).
    exists ms. rewrite with_id_prop by done. by apply prop_lookup. }
  destruct (param_is _ "timestamp").
  { destruct (sort_returns (compare_createdAt (default "desc" (order query)))
                kept) as [s ->]; [| by eexists].
    intros a b Ha Hb. destruct (Hdates a Ha) as [x Hx], (Hdates b Hb) as [y Hy].
    unfold compare_createdAt. rewrite Hx, Hy. by eexists. }
  destruct (param_is _ "status"); [| by eexists].
  destruct (sort_returns (compare_status env (default "desc" (order query)))
              kept) as [s ->]; [| by eexists].
  intros a b _ _. unfold compare_status. destruct (strict_eq _ _); by eexists.
Qed.
End ListHandler.

(** C2: the list handler answers 404 exactly when the store answers
    its query with no document; when the store returns documents and
    the substring filter drops every one of them, the answer is 200
    with an empty list. *)
Theorem get_list_not_found (env : Env) (query : ListQuery) (w : World) :
  (statusCode (get_list env query w).1 = 404 ↔
     unavailable env (steps w) = false ∧ fetched query w = []) ∧
  (unavailable env (steps w) = false →
   fetched query w ≠ [] →
   forEach_push env (search query) (fetched query w) = Ok [] →
   (get_list env query w).1 = mkResponse 200 (TaskList [])).
Proof.
  rewrite get_list_runs. split.
  - destruct (unavailable env _); [by split; [| intros []] |].
    destruct (fetched query w) as [| doc rest]; [done |].
    split; [| by intros []].
    destruct (forEach_push _ _ _) as [kept |]; cbn [mbind Outcome_bind];
      [| done].
    destruct (param_is _ "timestamp"); [by destruct (sort _ kept) |].
    destruct (param_is _ "status"); [by destruct (sort _ kept) | done].
  - intros -> Hne Hk.
    destruct (fetched query w) as [| doc rest]; [done |].
    rewrite Hk. cbn [mbind Outcome_bind sort].
    destruct (param_is _ "timestamp"); [done |].
    by destruct (param_is _ "status").
Qed.

Lemma get_list_not_found_witness :
  fetched (Sample.searching (Sample.Alpha ++ Sample.Sigma)%string)
    Sample.greek ≠ [] ∧
  (get_list Sample.env
     (Sample.searching (Sample.Alpha ++ Sample.Sigma)%string)
     Sample.greek).1 = mkResponse 200 (TaskList []).
Proof.
  split; [by vm_compute |].
  apply (get_list_not_found Sample.env
           (Sample.searching (Sample.Alpha ++ Sample.Sigma)%string)
           Sample.greek).
  - reflexivity.
  - by vm_compute.
  - by vm_compute.
Defined.

(** C4: with a search term, every task the list handler returns has a
    title or a description containing the term case-insensitively.
    The in-memory filter alone ensures it, whatever documents the
    store's range query handed over. *)
Theorem get_list_search_matches (env : Env) (term : string) :
  term ≠ EmptyString →
  (∀ snapshot tasks,
     forEach_push env (Some term) snapshot = Ok tasks →
     Forall (λ task, contains_ci env term (prop task "title") ∨
                     contains_ci env term (prop task "description")) tasks) ∧
  (∀ sortBy order w tasks,
     (get_list env (mkListQuery sortBy order (Some term)) w).1 =
       mkResponse 200 (TaskList tasks) →
     Forall (λ task, contains_ci env term (prop task "title") ∨
                     contains_ci env term (prop task "description")) tasks).
Proof.
  intros Hterm.
  assert (Hgiven : given (Some term) = true).
  { cbn [given]. by apply negb_true_iff, String.eqb_neq. }
  assert (Hfilter : ∀ snapshot tasks,
    forEach_push env (Some term) snapshot = Ok tasks →
    Forall (λ task, contains_ci env term (prop task "title") ∨
                    contains_ci env term (prop task "description")) tasks).
  { intros snapshot tasks [_ Hkept]%forEach_push_kept.
    eapply Forall_impl; [exact Hkept |]. intros task Hk.
    by apply (keeps_matches env (Some term) task Hgiven). }
  split; [exact Hfilter |].
  intros sortBy order w tasks (_ & _ & kept & Hk & Hperm & _)%get_list_200.
  rewrite <- Hperm. by eapply Hfilter.
Qed.

Lemma get_list_search_matches_witness :
  length (tasks_of (get_list Sample.env (Sample.searching "milk")
                      Sample.milk).1) = 1%nat ∧
  Forall (λ task, contains_ci Sample.env "milk" (prop task "title") ∨
                  contains_ci Sample.env "milk" (prop task "description"))
    (tasks_of (get_list Sample.env (Sample.searching "milk") Sample.milk).1).
Proof.
  split; [reflexivity |].
  destruct (get_list_search_matches Sample.env "milk") as [_ H];
    [discriminate |].
  apply (H None None Sample.milk). by vm_compute.
Defined.

(** C9: with a search term, every task the list handler returns has a
    title within the range from the term to the term followed by
    U+F8FF, in the store's string order: a document whose title is
    outside it is not returned, whatever its description contains. *)
Theorem get_list_title_range (env : Env) (term : string)
    (sortBy order : option string) (w : World) (tasks : list Obj) :
  term ≠ EmptyString →
  (get_list env (mkListQuery sortBy order (Some term)) w).1 =
    mkResponse 200 (TaskList tasks) →
  Forall (λ task, ∃ title,
            task !! "title" = Some (JStr title) ∧
            String.leb term title = true ∧
            String.leb title (term ++ highSentinel) = true) tasks ∧
  (∀ id data title,
     db w !! id = Some data →
     data !! "title" = Some (JStr title) →
     String.leb term title && String.leb title (term ++ highSentinel) = false →
     with_id (id, data) ∉ tasks).
Proof.
  intros Hterm (_ & _ & kept & Hk & Hperm & _)%get_list_200.
  assert (Hgiven : given (Some term) = true).
  { cbn [given]. by apply negb_true_iff, String.eqb_neq. }
  assert (Hrange : Forall (λ task, ∃ title,
            task !! "title" = Some (JStr title) ∧
            String.leb term title = true ∧
            String.leb title (term ++ highSentinel) = true) tasks).
  { rewrite <- Hperm. apply Forall_forall. intros task Htask.
    destruct (forEach_push_kept _ _ _ _ Hk) as [Hsub _].
    apply (sublist_subseteq _ _ Hsub), list_elem_of_fmap in Htask
      as (doc & -> & Hdoc).
    apply run_query_elem in Hdoc as [_ Hin]. cbn [search] in Hin.
    unfold base_query in Hin. rewrite Hgiven in Hin. cbn [default] in Hin.
    unfold title_in_range in Hin. rewrite with_id_lookup by done.
    destruct (doc.2 !! "title") as [[| | | | title | | |] |]; try discriminate.
    apply andb_true_iff in Hin as [Hlo Hhi]. by exists title. }
  split; [exact Hrange |].
  intros id data title Hdata Htitle Hout Hin.
  rewrite Forall_forall in Hrange.
  destruct (Hrange _ Hin) as (title' & Ht' & Hlo & Hhi).
  rewrite with_id_lookup in Ht' by done. cbn [snd] in Ht'.
  rewrite Htitle in Ht'. injection Ht' as <-.
  by rewrite Hlo, Hhi in Hout.
Qed.

Lemma get_list_title_range_witness :
  ∃ data,
    db Sample.milk !! "task5" = Some data ∧
    contains_ci Sample.env "milk" (prop data "description") ∧
    statusCode (get_list Sample.env (Sample.searching "milk")
                  Sample.milk).1 = 200 ∧
    with_id ("task5", data) ∉
      tasks_of (get_list Sample.env (Sample.searching "milk") Sample.milk).1.
Proof.
  destruct (db Sample.milk !! "task5") as [data |] eqn:Hdata;
    [| by vm_compute in Hdata].
  exists data. split; [reflexivity |].
  assert (Htitle : data !! "title" = Some (JStr "Buy bread")).
  { vm_compute in Hdata. injection Hdata as <-. reflexivity. }
  split.
  { vm_compute in Hdata. injection Hdata as <-. eexists. split; by vm_compute. }
  split; [reflexivity |].
  eapply (get_list_title_range Sample.env "milk" None None Sample.milk).
  - discriminate.
  - by vm_compute.
  - by vm_compute.
  - exact Htitle.
  - reflexivity.
Defined.

(** C7: sorted by timestamp, the returned list is in non-decreasing
    createdAt order when order is asc and in non-increasing createdAt
    order when order is desc or absent; without sortBy it is the
    fetched list as the filter left it, in the store's order.  The
    handler does return 200 when the store answers with task records. *)
Theorem get_list_order (env : Env) (query : ListQuery) (w : World) :
  (∀ tasks,
     (get_list env query w).1 = mkResponse 200 (TaskList tasks) →
     (sortBy query = Some "timestamp" → order query = Some "asc" →
        StronglySorted createdAt_le tasks) ∧
     (sortBy query = Some "timestamp" →
      order query = Some "desc" ∨ order query = None →
        StronglySorted (flip createdAt_le) tasks) ∧
     (sortBy query = None →
        forEach_push env (search query) (fetched query w) = Ok tasks ∧
        (given (search query) = false → tasks = with_id <$> fetched query w))) ∧
  (unavailable env (steps w) = false →
   fetched query w ≠ [] →
   Forall (λ doc, task_doc doc.2) (fetched query w) →
   ∃ tasks, (get_list env query w).1 = mkResponse 200 (TaskList tasks)).
Proof.
  split; [| apply get_list_returns].
  intros tasks (_ & _ & kept & Hk & _ & Hsort)%get_list_200.
  split; [| split].
  - intros Hby Hasc. rewrite Hby, Hasc in Hsort. cbn in Hsort.
    by eapply sort_createdAt_asc.
  - intros Hby Hdesc. rewrite Hby in Hsort.
    cbn [param_is] in Hsort. rewrite String.eqb_refl in Hsort.
    eapply (sort_createdAt_desc (default "desc" (order query)));
      [| exact Hsort].
    by destruct Hdesc as [-> | ->].
  - intros Hby. rewrite Hby in Hsort. cbn [param_is] in Hsort.
    injection Hsort as <-. split; [done |].
    intros Hgiven. rewrite forEach_push_all in Hk by done. by injection Hk.
Qed.

Lemma get_list_order_witness :
  StronglySorted createdAt_le
    (tasks_of (get_list Sample.env (Sample.by_time (Some "asc"))
                 Sample.two_tasks).1) ∧
  StronglySorted (flip createdAt_le)
    (tasks_of (get_list Sample.env (Sample.by_time None)
                 Sample.two_tasks).1) ∧
  length (tasks_of (get_list Sample.env (Sample.by_time None)
                      Sample.two_tasks).1) = 2%nat ∧
  ∃ tasks,
    (get_list Sample.env (Sample.by_time (Some "asc")) Sample.two_tasks).1 =
      mkResponse 200 (TaskList tasks).
Proof.
  split; [| split; [| split; [reflexivity |]]].
  - destruct (get_list_order Sample.env (Sample.by_time (Some "asc"))
                Sample.two_tasks) as [H _].
    eapply H; [by vm_compute | reflexivity | reflexivity].
  - destruct (get_list_order Sample.env (Sample.by_time None)
                Sample.two_tasks) as [H _].
    eapply H; [by vm_compute | reflexivity | by right].
  - destruct (get_list_order Sample.env (Sample.by_time (Some "asc"))
                Sample.two_tasks) as [_ H].
    apply H.
    + reflexivity.
    + by vm_compute.
    + vm_compute fetched. repeat constructor; eexists; reflexivity.
Defined.

(** ** Chat messages *)

Lemma index_compare_antisym (a b : JsValue) :
  index_compare b a = CompOpp (index_compare a b).
Proof.
  destruct a as [| | [] | [| |] | | | |], b as [| | [] | [| |] | | | |];
    try reflexivity; cbn [index_compare].
  - symmetry. apply Qcompare_antisym.
  - apply String.compare_antisym.
Qed.

#[global] Instance by_timestamp_total : Total by_timestamp.
Proof.
  intros a b. unfold by_timestamp.
  rewrite (index_compare_antisym (prop a.2 "timestamp")).
  destruct (index_compare _ _); cbn [CompOpp]; auto.
  destruct (String.leb_total a.1 b.1) as [H | H]; rewrite H; cbn; auto.
Qed.

(** Between two numeric timestamps the index order is the numeric one. *)
Lemma by_timestamp_numeric (a b : string * Obj) (x y : Q) :
  prop a.2 "timestamp" = JNum (Fin x) →
  prop b.2 "timestamp" = JNum (Fin y) →
  by_timestamp a b → Qle x y.
Proof.
  unfold by_timestamp. intros -> ->. cbn [index_compare]. rewrite Qle_alt.
  by destruct (Qcompare x y).
Qed.


(** The post handler stores messages without an [id] of their own. *)
Lemma post_chat_no_id (env : Env) (body : Obj) (w : World) :
  map_Forall (λ _ value, value !! "id" = None) (rtdb w) →
  map_Forall (λ _ value, value !! "id" = None) (rtdb (post_chat env body w).2).
Proof.
  intros Hw.
  destruct (truthy (prop body "username")) eqn:Hu;
    [destruct (truthy (prop body "message")) eqn:Hm |].
  - rewrite (post_chat_accepts env body w Hu Hm). cbv zeta.
    destruct (unavailable env _); [done |]. cbn [snd rtdb].
    apply map_Forall_insert_2; [by simplify_map_eq | done].
  - by rewrite post_chat_rejects by auto.
  - by rewrite post_chat_rejects by auto.
Qed.



(** ** The persisted records *)

Lemma get_list_stores (env : Env) (query : ListQuery) (w : World) :
  db (get_list env query w).2 = db w ∧ rtdb (get_list env query w).2 = rtdb w.
Proof.
  unfold get_list. run. destruct (unavailable env _); run; [done |].
  destruct (run_query _ _); [done |].
  destruct (forEach_push _ _ _); run; [| done].
  destruct (param_is _ "timestamp"); [by destruct (sort _ _) |].
  destruct (param_is _ "status"); [by destruct (sort _ _) | done].
Qed.

Lemma get_chats_stores (env : Env) (w : World) :
  db (get_chats env w).2 = db w ∧ rtdb (get_chats env w).2 = rtdb w.
Proof.
  unfold get_chats. run. destruct (unavailable env _); run; [done |].
  by destruct (orderByChild_timestamp _).
Qed.

(** The invariant of the data model: what is persisted has its
    required fields, whichever handler runs. *)
Lemma persisted_ok_preserved (env : Env) (id : string) (body : Obj)
    (query : ListQuery) (w : World) :
  persisted_ok w →
  persisted_ok (post_to_do_list env body w).2 ∧
  persisted_ok (put_todo env id body w).2 ∧
  persisted_ok (get_list env query w).2 ∧
  persisted_ok (delete_list env id w).2 ∧
  persisted_ok (post_chat env body w).2 ∧
  persisted_ok (get_chats env w).2.
Proof.
  intros [Hdb Hrtdb]. unfold persisted_ok.
  split; [| split; [| split; [| split; [| split]]]].
  - destruct (truthy (prop body "title")) eqn:Ht;
      [destruct (truthy (prop body "description")) eqn:Hd |].
    + rewrite (post_to_do_list_accepts env body w Ht Hd). cbv zeta.
      destruct (unavailable env _); [done |].
      destruct (db w !! _); [done |]. cbn [snd db rtdb].
      split; [| done]. apply map_Forall_insert_2; [| done].
      split; apply truthy_non_empty; unfold prop at 1; by simplify_map_eq.
    + by rewrite post_to_do_list_rejects by auto.
    + by rewrite post_to_do_list_rejects by auto.
  - destruct (truthy (prop body "title")) eqn:Ht;
      [destruct (truthy (prop body "description")) eqn:Hd |].
    + rewrite (put_todo_accepts env id body w Ht Hd). cbv zeta.
      destruct (unavailable env _); [done |].
      destruct (db w !! id) as [old |]; [| done]. cbn [snd db rtdb].
      split; [| done]. apply map_Forall_insert_2; [| done].
      split; apply truthy_non_empty; unfold prop at 1;
        rewrite lookup_union_l'; by simplify_map_eq.
    + by rewrite put_todo_rejects by auto.
    + by rewrite put_todo_rejects by auto.
  - destruct (get_list_stores env query w) as [-> ->]. by split.
  - rewrite delete_list_runs. destruct (unavailable env _); [done |].
    cbn [snd db rtdb]. split; [| done]. by apply map_Forall_delete.
  - destruct (truthy (prop body "username")) eqn:Hu;
      [destruct (truthy (prop body "message")) eqn:Hm |].
    + rewrite (post_chat_accepts env body w Hu Hm). cbv zeta.
      destruct (unavailable env _); [done |]. cbn [snd db rtdb].
      split; [done |]. apply map_Forall_insert_2; [| done].
      split; apply truthy_non_empty; unfold prop at 1; by simplify_map_eq.
    + by rewrite post_chat_rejects by auto.
    + by rewrite post_chat_rejects by auto.
  - destruct (get_chats_stores env w) as [-> ->]. by split.
Qed.

(** ** Sample runs *)

Example includes_inside : includes "xxabcxx" "abc" = true.
Proof. reflexivity. Qed.

Example includes_nowhere : includes "xxabxcx" "abc" = false.
Proof. reflexivity. Qed.

Example empty_array_is_truthy : truthy (JArr []) = true.
Proof. reflexivity. Qed.

Example final_sigma :
  Sample.lowerCase (Sample.Alpha ++ Sample.Sigma)%string
  ≠ String.substring 0 4
      (Sample.lowerCase (Sample.Alpha ++ Sample.Sigma ++ Sample.Alpha)%string).
Proof. by vm_compute. Qed.

Example list_oldest_first :
  (λ task, prop task "title") <$>
    tasks_of (get_list Sample.env (Sample.by_time (Some "asc"))
                Sample.two_tasks).1 =
  [JStr "Call home"; JStr "Buy milk"].
Proof. reflexivity. Qed.

Example list_newest_first :
  (λ task, prop task "title") <$>
    tasks_of (get_list Sample.env (Sample.by_time None) Sample.two_tasks).1 =
  [JStr "Buy milk"; JStr "Call home"].
Proof. reflexivity. Qed.

Example list_search_by_title_only :
  (λ task, prop task "title") <$>
    tasks_of (get_list Sample.env (Sample.searching "milk") Sample.milk).1 =
  [JStr "milk run"].
Proof. reflexivity. Qed.

Example list_search_description_only :
  (get_list Sample.env (Sample.searching "weekly") Sample.milk).1 =
  mkResponse 404 (Message "No tasks found").
Proof. reflexivity. Qed.

Example delete_absent_task :
  (delete_list Sample.env "nothing" Sample.two_tasks).1 =
  mkResponse 200 (Message "Task deleted successfully").
Proof. reflexivity. Qed.

Example update_absent_task :
  (put_todo Sample.env "nothing" (Sample.task "A" "B") Sample.two_tasks).1 =
  mkResponse 500 (MessageError "Server error" NotFound).
Proof. reflexivity. Qed.

Example chats_in_timestamp_order :
  (λ message, prop message "timestamp") <$>
    messages_of (get_chats Sample.env Sample.two_chats).1 =
  [JNum (Fin (inject_Z 1001)); JNum (Fin (inject_Z 1004))].
Proof. reflexivity. Qed.

Example chats_empty :
  (get_chats Sample.env Sample.empty).1 =
  mkResponse 404 (Message "No chat messages found").
Proof. reflexivity. Qed.

(** * Further properties of the handlers *)

(** ** Deleting *)

(** X1: when the store takes the request, DELETE /list/:id answers 200
    whether or not the document exists; afterwards the document is
    absent, every other document and the chat store are as before, and
    the one request sent is the delete of that id. *)
Theorem delete_list_removes (env : Env) (id : string) (w : World) :
  unavailable env (steps w) = false →
  (delete_list env id w).1 =
    mkResponse 200 (Message "Task deleted successfully") ∧
  db (delete_list env id w).2 !! id = None ∧
  (∀ k, k ≠ id → db (delete_list env id w).2 !! k = db w !! k) ∧
  rtdb (delete_list env id w).2 = rtdb w ∧
  log (delete_list env id w).2 = log w ++ [FirestoreDelete id].
Proof.
  intros Hup. rewrite delete_list_runs, Hup. cbn [fst snd db rtdb log].
  split; [done |]. split; [apply lookup_delete_eq |].
  split; [| done]. intros k Hk. by apply lookup_delete_ne.
Qed.

Lemma delete_list_removes_witness :
  db Sample.two_tasks !! "task2" ≠ None ∧
  db (delete_list Sample.env "task2" Sample.two_tasks).2 !! "task2" = None ∧
  db (delete_list Sample.env "task2" Sample.two_tasks).2 !! "task5" =
    db Sample.two_tasks !! "task5".
Proof.
  split; [by vm_compute |].
  destruct (delete_list_removes Sample.env "task2" Sample.two_tasks)
    as (_ & Hgone & Hrest & _).
  - reflexivity.
  - split; [exact Hgone | by apply Hrest].
Defined.

(** X2: deleting an id that has no document changes nothing in the
    store and is still answered 200; so a second delete of the same id
    leaves the store as the first one left it. *)
Theorem delete_list_absent (env : Env) (id : string) (w : World) :
  unavailable env (steps w) = false →
  (db w !! id = None →
     (delete_list env id w).1 =
       mkResponse 200 (Message "Task deleted successfully") ∧
     db (delete_list env id w).2 = db w) ∧
  (unavailable env (S (steps w)) = false →
     (delete_list env id (delete_list env id w).2).1 =
       mkResponse 200 (Message "Task deleted successfully") ∧
     db (delete_list env id (delete_list env id w).2).2 =
       db (delete_list env id w).2).
Proof.
  intros Hup. split.
  - intros Habsent. rewrite delete_list_runs, Hup. cbn [fst snd db].
    split; [done |]. by apply delete_id.
  - intros Hup'. rewrite (delete_list_runs env id (delete_list env id w).2).
    rewrite (delete_list_runs env id w), Hup. cbn [fst snd db rtdb steps log].
    rewrite Hup'. cbn [fst snd db]. split; [done |].
    apply delete_id, lookup_delete_eq.
Qed.

Lemma delete_list_absent_witness :
  (delete_list Sample.env "nothing" Sample.two_tasks).1 =
    mkResponse 200 (Message "Task deleted successfully") ∧
  db (delete_list Sample.env "nothing" Sample.two_tasks).2 =
    db Sample.two_tasks.
Proof.
  destruct (delete_list_absent Sample.env "nothing" Sample.two_tasks)
    as [H _]; [reflexivity |].
  apply H. reflexivity.
Defined.

(** X3: a task created and then deleted by the identifier the create
    answered leaves the collection as it was before the create. *)
Theorem create_then_delete (env : Env) (body : Obj) (w : World) :
  truthy (prop body "title") = true →
  truthy (prop body "description") = true →
  unavailable env (S (S (steps w))) = false →
  unavailable env (S (S (S (steps w)))) = false →
  db w !! autoId env (S (S (steps w))) = None →
  ∃ id,
    (post_to_do_list env body w).1 =
      mkResponse 201 (MessageId "Task added successfully" id) ∧
    is_Some (db (post_to_do_list env body w).2 !! id) ∧
    (delete_list env id (post_to_do_list env body w).2).1 =
      mkResponse 200 (Message "Task deleted successfully") ∧
    db (delete_list env id (post_to_do_list env body w).2).2 = db w.
Proof.
  intros Ht Hd Hup Hup' Hfresh. eexists.
  rewrite delete_list_runs.
  rewrite (post_to_do_list_accepts env body w Ht Hd). cbv zeta.
  rewrite Hup, Hfresh. cbn [fst snd db rtdb steps log]. rewrite Hup'.
  cbn [fst snd db]. split; [reflexivity |].
  split; [by rewrite lookup_insert_eq |]. split; [done |].
  rewrite delete_insert_eq. by apply delete_id.
Qed.

Lemma create_then_delete_witness :
  ∃ id,
    (post_to_do_list Sample.env (Sample.task "A" "B") Sample.two_tasks).1 =
      mkResponse 201 (MessageId "Task added successfully" id) ∧
    db (delete_list Sample.env id
          (post_to_do_list Sample.env (Sample.task "A" "B")
             Sample.two_tasks).2).2 = db Sample.two_tasks.
Proof.
  destruct (create_then_delete Sample.env (Sample.task "A" "B")
              Sample.two_tasks) as (id & Hresp & _ & _ & Hdb);
    try reflexivity.
  exists id. split; [exact Hresp | exact Hdb].
Defined.

(** ** Updating *)

(** X4: PUT /todo/:id does not check that the document exists: for an
    id without a document the update is still sent, the store refuses
    it, the answer is 500, and no document is created or changed. *)
Theorem put_todo_missing (env : Env) (id : string) (body : Obj) (w : World) :
  truthy (prop body "title") = true →
  truthy (prop body "description") = true →
  db w !! id = None →
  statusCode (put_todo env id body w).1 = 500 ∧
  (unavailable env (S (steps w)) = false →
     (put_todo env id body w).1 =
       mkResponse 500 (MessageError "Server error" NotFound)) ∧
  (∃ data, log (put_todo env id body w).2 =
             log w ++ [FirestoreUpdate id data]) ∧
  db (put_todo env id body w).2 = db w.
Proof.
  intros Ht Hd Habsent.
  rewrite (put_todo_accepts env id body w Ht Hd). cbv zeta. rewrite Habsent.
  destruct (unavailable env _); cbn [fst snd db log statusCode].
  - split; [done |]. split; [done |]. split; [by eexists | done].
  - split; [done |]. split; [done |]. split; [by eexists | done].
Qed.

Lemma put_todo_missing_witness :
  (put_todo Sample.env "nothing" (Sample.task "A" "B") Sample.two_tasks).1 =
    mkResponse 500 (MessageError "Server error" NotFound) ∧
  db (put_todo Sample.env "nothing" (Sample.task "A" "B")
        Sample.two_tasks).2 = db Sample.two_tasks.
Proof.
  destruct (put_todo_missing Sample.env "nothing" (Sample.task "A" "B")
              Sample.two_tasks) as (_ & Hresp & _ & Hdb);
    try reflexivity.
  split; [by apply Hresp | exact Hdb].
Defined.

(** X5: an update the store takes changes only the target document,
    and in it only title, description, status and updatedAt: every
    other field keeps the value it had, and title and description
    become those of the body. *)
Theorem put_todo_keeps_the_rest (env : Env) (id : string) (body old : Obj)
    (w : World) :
  truthy (prop body "title") = true →
  truthy (prop body "description") = true →
  unavailable env (S (steps w)) = false →
  db w !! id = Some old →
  ∃ stored,
    db (put_todo env id body w).2 !! id = Some stored ∧
    stored !! "title" = Some (prop body "title") ∧
    stored !! "description" = Some (prop body "description") ∧
    (∀ field,
       field ∉ ["title"; "description"; "status"; "updatedAt"] →
       stored !! field = old !! field) ∧
    (∀ k, k ≠ id → db (put_todo env id body w).2 !! k = db w !! k) ∧
    rtdb (put_todo env id body w).2 = rtdb w.
Proof.
  intros Ht Hd Hup Hold.
  rewrite (put_todo_accepts env id body w Ht Hd). cbv zeta.
  rewrite Hup, Hold. cbn [fst snd db rtdb]. eexists.
  split; [apply lookup_insert_eq |].
  split; [rewrite lookup_union_l'; by simplify_map_eq |].
  split; [rewrite lookup_union_l'; by simplify_map_eq |].
  split; [| split; [| done]].
  - intros field Hfield. apply lookup_union_r.
    rewrite !not_elem_of_cons in Hfield.
    destruct Hfield as (? & ? & ? & ? & _). by simplify_map_eq.
  - intros k Hk. by rewrite lookup_insert_ne.
Qed.

Lemma put_todo_keeps_the_rest_witness :
  ∃ stored,
    db (put_todo Sample.env "task2" (Sample.task "Call mum" "tonight")
          Sample.two_tasks).2 !! "task2" = Some stored ∧
    stored !! "title" = Some (JStr "Call mum") ∧
    stored !! "createdAt" = Some (JDate 1000).
Proof.
  destruct (db Sample.two_tasks !! "task2") as [old |] eqn:Hold;
    [| by vm_compute in Hold].
  destruct (put_todo_keeps_the_rest Sample.env "task2"
              (Sample.task "Call mum" "tonight") old Sample.two_tasks)
    as (stored & Hstored & Htitle & _ & Hrest & _);
    try reflexivity; [exact Hold |].
  exists stored. split; [exact Hstored |]. split; [exact Htitle |].
  rewrite Hrest.
  - vm_compute in Hold. injection Hold as <-. reflexivity.
  - rewrite !not_elem_of_cons. repeat split; try discriminate.
    apply not_elem_of_nil.
Defined.

(** ** Answers and store traffic *)

Lemma get_list_log (env : Env) (query : ListQuery) (w : World) :
  log (get_list env query w).2 =
    log w ++ [FirestoreGet (base_query (search query))].
Proof.
  unfold get_list. run. destruct (unavailable env _); run; [done |].
  destruct (run_query _ _); [done |].
  destruct (forEach_push _ _ _); run; [| done].
  destruct (param_is _ "timestamp"); [by destruct (sort _ _) |].
  destruct (param_is _ "status"); [by destruct (sort _ _) | done].
Qed.

Lemma get_chats_log (env : Env) (w : World) :
  log (get_chats env w).2 = log w ++ [RtdbOnce].
Proof.
  unfold get_chats. run. destruct (unavailable env _); run; [done |].
  by destruct (orderByChild_timestamp _).
Qed.

(** X6: each handler answers only with the status codes of its route:
    create 201, 400 or 500; update 200, 400 or 500; list 200, 404 or
    500; delete 200 or 500; post chat 201, 400 or 500; chats 200, 404
    or 500.  In particular an update never answers 404. *)
Theorem status_codes (env : Env) (id : string) (body : Obj)
    (query : ListQuery) (w : World) :
  statusCode (post_to_do_list env body w).1 ∈ [201; 400; 500] ∧
  statusCode (put_todo env id body w).1 ∈ [200; 400; 500] ∧
  statusCode (get_list env query w).1 ∈ [200; 404; 500] ∧
  statusCode (delete_list env id w).1 ∈ [200; 500] ∧
  statusCode (post_chat env body w).1 ∈ [201; 400; 500] ∧
  statusCode (get_chats env w).1 ∈ [200; 404; 500].
Proof.
  split; [| split; [| split; [| split; [| split]]]].
  - destruct (truthy (prop body "title")) eqn:Ht;
      [destruct (truthy (prop body "description")) eqn:Hd |].
    + rewrite (post_to_do_list_accepts env body w Ht Hd). cbv zeta.
      destruct (unavailable env _); [set_solver |].
      destruct (db w !! _); set_solver.
    + rewrite post_to_do_list_rejects by auto. set_solver.
    + rewrite post_to_do_list_rejects by auto. set_solver.
  - destruct (truthy (prop body "title")) eqn:Ht;
      [destruct (truthy (prop body "description")) eqn:Hd |].
    + rewrite (put_todo_accepts env id body w Ht Hd). cbv zeta.
      destruct (unavailable env _); [set_solver |].
      destruct (db w !! _); set_solver.
    + rewrite put_todo_rejects by auto. set_solver.
    + rewrite put_todo_rejects by auto. set_solver.
  - rewrite get_list_runs. destruct (unavailable env _); [set_solver |].
    destruct (fetched query w); [set_solver |].
    destruct (forEach_push _ _ _); cbn [mbind Outcome_bind]; [| set_solver].
    destruct (param_is _ "timestamp"); [destruct (sort _ _); set_solver |].
    destruct (param_is _ "status"); [destruct (sort _ _) |]; set_solver.
  - rewrite delete_list_runs. destruct (unavailable env _); set_solver.
  - destruct (truthy (prop body "username")) eqn:Hu;
      [destruct (truthy (prop body "message")) eqn:Hm |].
    + rewrite (post_chat_accepts env body w Hu Hm). cbv zeta.
      destruct (unavailable env _); set_solver.
    + rewrite post_chat_rejects by auto. set_solver.
    + rewrite post_chat_rejects by auto. set_solver.
  - rewrite get_chats_runs. destruct (unavailable env _); [set_solver |].
    destruct (orderByChild_timestamp _); set_solver.
Qed.

(** X7: the two reading handlers never write: after GET /list and after
    GET /chats both stores hold what they held, and the only request
    sent is the one read, the list's query being the whole collection
    without a search term and the title range with one. *)
Theorem reads_do_not_write (env : Env) (query : ListQuery) (w : World) :
  db (get_list env query w).2 = db w ∧
  rtdb (get_list env query w).2 = rtdb w ∧
  log (get_list env query w).2 =
    log w ++ [FirestoreGet
                (if given (search query)
                 then TitleRange (default EmptyString (search query))
                        (default EmptyString (search query) ++ highSentinel)
                 else Collection)] ∧
  db (get_chats env w).2 = db w ∧
  rtdb (get_chats env w).2 = rtdb w ∧
  log (get_chats env w).2 = log w ++ [RtdbOnce].
Proof.
  destruct (get_list_stores env query w) as [-> ->].
  destruct (get_chats_stores env w) as [-> ->].
  rewrite get_list_log, get_chats_log. unfold base_query.
  by destruct (given (search query)).
Qed.

(** X8: when the store rejects the request a handler sends, the answer
    is 500 with the message "Server error" and both stores are left as
    they were; this holds for all six handlers. *)
Theorem store_rejection (env : Env) (id : string) (body : Obj)
    (query : ListQuery) (w : World) :
  let failed r w' :=
    r = mkResponse 500 (MessageError "Server error" Unavailable) ∧
    db w' = db w ∧ rtdb w' = rtdb w in
  (truthy (prop body "title") = true →
   truthy (prop body "description") = true →
   (unavailable env (S (S (steps w))) = true →
      failed (post_to_do_list env body w).1 (post_to_do_list env body w).2) ∧
   (unavailable env (S (steps w)) = true →
      failed (put_todo env id body w).1 (put_todo env id body w).2)) ∧
  (truthy (prop body "username") = true →
   truthy (prop body "message") = true →
   unavailable env (S (S (steps w))) = true →
     failed (post_chat env body w).1 (post_chat env body w).2) ∧
  (unavailable env (steps w) = true →
     failed (get_list env query w).1 (get_list env query w).2 ∧
     failed (delete_list env id w).1 (delete_list env id w).2 ∧
     failed (get_chats env w).1 (get_chats env w).2).
Proof.
  cbv zeta. split; [| split].
  - intros Ht Hd. split; intros Hdown.
    + rewrite (post_to_do_list_accepts env body w Ht Hd). cbv zeta.
      by rewrite Hdown.
    + rewrite (put_todo_accepts env id body w Ht Hd). cbv zeta.
      by rewrite Hdown.
  - intros Hu Hm Hdown.
    rewrite (post_chat_accepts env body w Hu Hm). cbv zeta. by rewrite Hdown.
  - intros Hdown.
    destruct (get_list_stores env query w) as [-> ->].
    destruct (get_chats_stores env w) as [-> ->].
    rewrite get_list_runs, get_chats_runs, delete_list_runs, Hdown.
    by repeat split.
Qed.

Lemma store_rejection_witness :
  (post_to_do_list Sample.down (Sample.task "A" "B") Sample.two_tasks).1 =
    mkResponse 500 (MessageError "Server error" Unavailable) ∧
  (post_chat Sample.down (Sample.chat "al" "hi") Sample.two_chats).1 =
    mkResponse 500 (MessageError "Server error" Unavailable) ∧
  db (delete_list Sample.down "task2" Sample.two_tasks).2 =
    db Sample.two_tasks.
Proof.
  destruct (store_rejection Sample.down "task2" (Sample.task "A" "B")
              (Sample.by_time None) Sample.two_tasks)
    as (Htask & _ & Hreads).
  destruct (store_rejection Sample.down "task2" (Sample.chat "al" "hi")
              (Sample.by_time None) Sample.two_chats)
    as (_ & Hchat & _).
  split; [| split].
  - apply Htask; reflexivity.
  - apply Hchat; reflexivity.
  - apply Hreads. reflexivity.
Defined.


(** ** Query parameters of the list *)

Lemma sort_ext {A : Type} (f g : A → A → Outcome JsNumber) (l : list A) :
  (∀ x y, f x y = g x y) → sort f l = sort g l.
Proof.
  intros Hfg.
  assert (Hins : ∀ x s, insert f x s = insert g x s).
  { intros x s. induction s as [| y rest IH]; [done |].
    cbn [insert]. by rewrite Hfg, IH. }
  induction l as [| x rest IH]; [done |].
  cbn [sort]. rewrite IH. destruct (sort g rest); [apply Hins | done].
Qed.

Lemma run_query_found (q : Query) (docs : gmap string Obj)
    (id : string) (data : Obj) :
  docs !! id = Some data →
  match q with
  | Collection => True
  | TitleRange lo hi => title_in_range lo hi (id, data) = true
  end →
  (id, data) ∈ run_query q docs.
Proof.
  intros Hdoc Hq. destruct q as [| lo hi]; cbn [run_query].
  - rewrite merge_sort_Permutation. by apply elem_of_map_to_list.
  - rewrite merge_sort_Permutation, list_elem_of_In, filter_In.
    rewrite <- list_elem_of_In, elem_of_map_to_list. by split.
Qed.

Lemma forEach_push_keeps (env : Env) (search : option string)
    (snapshot : list (string * Obj)) (tasks : list Obj) (doc : string * Obj) :
  forEach_push env search snapshot = Ok tasks →
  doc ∈ snapshot →
  keeps env search (with_id doc) = Ok true →
  with_id doc ∈ tasks.
Proof.
  revert tasks. induction snapshot as [| d rest IH]; intros tasks H Hin Hk;
    [by apply elem_of_nil in Hin |].
  cbn [forEach_push] in H.
  destruct (keeps env search (with_id d)) as [keep |] eqn:Hd; outcome H;
    [| discriminate].
  destruct (forEach_push env search rest) as [kept |]; outcome H;
    [| discriminate].
  injection H as <-. apply elem_of_cons in Hin as [-> | Hin].
  - rewrite Hk in Hd. injection Hd as <-. by left.
  - specialize (IH kept eq_refl Hin Hk). destruct keep; [by right | done].
Qed.

(** X9: an empty search parameter is no search: the handler sends the
    same query, answers the same and leaves the same world as when
    the parameter is absent. *)
Theorem get_list_empty_search (env : Env) (sortBy order : option string)
    (w : World) :
  get_list env (mkListQuery sortBy order (Some EmptyString)) w =
  get_list env (mkListQuery sortBy order None) w.
Proof.
  unfold get_list. run. cbn [search base_query given].
  destruct (unavailable env _); [done |].
  destruct (run_query _ _) as [| doc rest]; [done |].
  by rewrite !forEach_push_all.
Qed.

(** X10: only the exact values count: an order other than asc sorts as
    desc does, and a sortBy other than timestamp and status sorts
    nothing, as when the parameter is absent. *)
Theorem get_list_other_values (env : Env) (query : ListQuery) (w : World) :
  (order query ≠ Some "asc" →
     (get_list env query w).1 =
     (get_list env (mkListQuery (sortBy query) (Some "desc") (search query))
        w).1) ∧
  (sortBy query ≠ Some "timestamp" → sortBy query ≠ Some "status" →
     (get_list env query w).1 =
     (get_list env (mkListQuery None (order query) (search query)) w).1).
Proof.
  split.
  - intros Horder. rewrite !get_list_runs. unfold fetched.
    cbn [sortBy order search default from_option id].
    assert (Hasc : String.eqb (default "desc" (order query)) "asc" = false).
    { destruct (order query) as [o |] eqn:Ho; [| done]. cbn [default from_option id].
      apply String.eqb_neq. intros ->. by apply Horder. }
    destruct (unavailable env _); [done |].
    destruct (run_query _ _) as [| doc rest]; [done |].
    destruct (forEach_push _ _ _) as [kept |]; cbn [mbind Outcome_bind];
      [| done].
    rewrite (sort_ext (compare_createdAt (default "desc" (order query)))
               (compare_createdAt "desc")).
    2: { intros a b. unfold compare_createdAt. by rewrite Hasc. }
    rewrite (sort_ext (compare_status env (default "desc" (order query)))
               (compare_status env "desc")).
    2: { intros a b. unfold compare_status. by rewrite Hasc. }
    done.
  - intros Htime Hstatus. rewrite !get_list_runs. unfold fetched.
    cbn [sortBy order search param_is].
    assert (param_is (sortBy query) "timestamp" = false) as ->.
    { destruct (sortBy query) as [s |] eqn:Hs; [| done]. cbn [param_is].
      apply String.eqb_neq. intros ->. by apply Htime. }
    assert (param_is (sortBy query) "status" = false) as ->.
    { destruct (sortBy query) as [s |] eqn:Hs; [| done]. cbn [param_is].
      apply String.eqb_neq. intros ->. by apply Hstatus. }
    done.
Qed.

Lemma get_list_other_values_witness :
  (get_list Sample.env (Sample.by_time (Some "ASC")) Sample.two_tasks).1 =
  (get_list Sample.env (Sample.by_time (Some "desc")) Sample.two_tasks).1 ∧
  (get_list Sample.env (mkListQuery (Some "title") None None)
     Sample.two_tasks).1 =
  (get_list Sample.env (mkListQuery None None None) Sample.two_tasks).1.
Proof.
  split.
  - apply (get_list_other_values Sample.env (Sample.by_time (Some "ASC"))
             Sample.two_tasks).
    discriminate.
  - apply (get_list_other_values Sample.env
             (mkListQuery (Some "title") None None) Sample.two_tasks);
      discriminate.
Defined.

(** ** What the list contains *)

(** X11: without a search term a 200 answer lists every document of the
    collection exactly once, each with its fields and its id, whatever
    the sort: the list is a rearrangement of the stored documents. *)
Theorem get_list_lists_all (env : Env) (query : ListQuery) (w : World)
    (tasks : list Obj) :
  given (search query) = false →
  (get_list env query w).1 = mkResponse 200 (TaskList tasks) →
  tasks ≡ₚ with_id <$> map_to_list (db w) ∧
  length tasks = size (db w) ∧
  (∀ id data, db w !! id = Some data → with_id (id, data) ∈ tasks).
Proof.
  intros Hgiven (_ & _ & kept & Hk & Hperm & _)%get_list_200.
  rewrite forEach_push_all in Hk by done. injection Hk as <-.
  assert (Hall : tasks ≡ₚ with_id <$> map_to_list (db w)).
  { rewrite <- Hperm. apply fmap_Permutation. unfold fetched, base_query.
    rewrite Hgiven. apply merge_sort_Permutation. }
  split; [exact Hall |]. split.
  - by rewrite Hall, length_fmap, length_map_to_list.
  - intros id data Hdoc. rewrite Hall.
    apply (list_elem_of_fmap_2 with_id (map_to_list (db w)) (id, data)).
    by apply elem_of_map_to_list.
Qed.

Lemma get_list_lists_all_witness :
  length (tasks_of (get_list Sample.env (Sample.by_time None)
                      Sample.two_tasks).1) = size (db Sample.two_tasks).
Proof.
  apply (get_list_lists_all Sample.env (Sample.by_time None)
           Sample.two_tasks); [reflexivity | by vm_compute].
Defined.

(** X12: with a search term a 200 answer misses no match: every
    document whose title is a string within the range from the term to
    the term followed by U+F8FF, and whose title or description
    contains the term case-insensitively, is in the list. *)
Theorem get_list_finds (env : Env) (term : string)
    (sortBy order : option string) (w : World) (tasks : list Obj)
    (id title : string) (data : Obj) :
  term ≠ EmptyString →
  (get_list env (mkListQuery sortBy order (Some term)) w).1 =
    mkResponse 200 (TaskList tasks) →
  db w !! id = Some data →
  data !! "title" = Some (JStr title) →
  String.leb term title = true →
  String.leb title (term ++ highSentinel) = true →
  contains_ci env term (prop data "title") ∨
  contains_ci env term (prop data "description") →
  with_id (id, data) ∈ tasks.
Proof.
  intros Hterm (_ & _ & kept & Hk & Hperm & _)%get_list_200
    Hdoc Htitle Hlo Hhi Hmatch.
  assert (Hgiven : given (Some term) = true).
  { cbn [given]. by apply negb_true_iff, String.eqb_neq. }
  rewrite <- Hperm. cbn [search] in Hk.
  eapply forEach_push_keeps; [exact Hk | |].
  - unfold fetched, base_query. cbn [search]. rewrite Hgiven.
    apply run_query_found; [done |]. unfold title_in_range. cbn [snd default from_option Datatypes.id].
    by rewrite Htitle, Hlo, Hhi.
  - unfold keeps. rewrite Hgiven. cbn [negb default from_option Datatypes.id].
    rewrite !with_id_prop by done. cbn [snd].
    rewrite (prop_lookup _ _ _ Htitle). cbn [lower mbind Outcome_bind].
    destruct (includes (toLowerCase env title) (toLowerCase env term)) eqn:Hin;
      [done |].
    destruct Hmatch as [(s & Hs & Hc) | (s & Hs & Hc)].
    + rewrite (prop_lookup _ _ _ Htitle) in Hs. injection Hs as <-. congruence.
    + rewrite Hs. cbn [lower mbind Outcome_bind]. by rewrite Hc.
Qed.

Lemma get_list_finds_witness :
  ∃ data,
    db Sample.milk !! "task2" = Some data ∧
    with_id ("task2", data) ∈
      tasks_of (get_list Sample.env (Sample.searching "milk") Sample.milk).1.
Proof.
  destruct (db Sample.milk !! "task2") as [data |] eqn:Hdata;
    [| by vm_compute in Hdata].
  exists data. split; [reflexivity |].
  assert (Htitle : data !! "title" = Some (JStr "milk run")).
  { vm_compute in Hdata. injection Hdata as <-. reflexivity. }
  eapply (get_list_finds Sample.env "milk" None None Sample.milk _
            "task2" "milk run" data).
  - discriminate.
  - by vm_compute.
  - exact Hdata.
  - exact Htitle.
  - reflexivity.
  - reflexivity.
  - left. exists "milk run". split; [by apply prop_lookup | reflexivity].
Defined.

(** ** Sorting by status, and what the timestamp sort needs *)

Section SortOn.
Context {A : Type} (comparefn : A → A → Outcome JsNumber).
Variable P : A → Prop.
Variable R : relation A.
Hypothesis not_after : ∀ x y v,
  P x → P y → comparefn x y = Ok v → sign v ≠ Gt → R x y.
Hypothesis after : ∀ x y v,
  P x → P y → comparefn x y = Ok v → sign v = Gt → R y x.
Hypothesis R_trans : Transitive R.

Lemma insert_sorted_on (x : A) (l l' : list A) :
  P x → Forall P l → StronglySorted R l → insert comparefn x l = Ok l' →
  StronglySorted R l'.
Proof.
  intros Hx. revert l'.
  induction l as [| y rest IH]; intros l' HP Hl H; cbn [insert] in H.
  - injection H as <-. repeat constructor.
  - destruct (comparefn x y) as [v |] eqn:Hc; outcome H; [| discriminate].
    apply Forall_cons in HP as [Hy HP].
    apply StronglySorted_inv in Hl as [Hrest Hall].
    destruct (sign v) eqn:Hs.
    1, 2: injection H as <-;
      assert (Hxy : R x y) by (eapply not_after; eauto; congruence);
      constructor; [by constructor |];
      constructor; [exact Hxy |];
      eapply Forall_impl; [exact Hall |]; intros z Hyz; by transitivity y.
    destruct (insert comparefn x rest) as [r |] eqn:Hr; outcome H;
      [| discriminate].
    injection H as <-. constructor; [by apply IH |].
    rewrite <- (insert_Permutation comparefn x rest r Hr).
    constructor; [by eapply after | exact Hall].
Qed.

Lemma sort_sorted_on (l l' : list A) :
  Forall P l → sort comparefn l = Ok l' → StronglySorted R l'.
Proof.
  revert l'. induction l as [| x rest IH]; intros l' HP H; cbn [sort] in H.
  - injection H as <-. constructor.
  - destruct (sort comparefn rest) as [s |] eqn:Hs; outcome H; [| discriminate].
    apply Forall_cons in HP as [Hx HP].
    eapply (insert_sorted_on x s); [done | | by apply IH | exact H].
    by rewrite <- (sort_Permutation comparefn rest s Hs).
Qed.
End SortOn.

Section SortThrows.
Context {A : Type} (comparefn : A → A → Outcome JsNumber).
Variable bad : A → Prop.
Variable e : Error.
Hypothesis throws : ∀ x y, bad x ∨ bad y → comparefn x y = Throw e.
Hypothesis throws_only : ∀ x y e', comparefn x y = Throw e' → e' = e.

Lemma insert_throws_only (x : A) (l : list A) (e' : Error) :
  insert comparefn x l = Throw e' → e' = e.
Proof.
  induction l as [| y rest IH]; cbn [insert]; [discriminate |].
  destruct (comparefn x y) as [v |] eqn:Hc; cbn [mbind Outcome_bind].
  - destruct (sign v); try discriminate.
    destruct (insert comparefn x rest); cbn [mbind Outcome_bind];
      [discriminate |].
    intros [= <-]. by apply IH.
  - intros [= <-]. by eapply throws_only.
Qed.

Lemma sort_throws_only (l : list A) (e' : Error) :
  sort comparefn l = Throw e' → e' = e.
Proof.
  induction l as [| x rest IH]; cbn [sort]; [discriminate |].
  destruct (sort comparefn rest) as [s |]; cbn [mbind Outcome_bind].
  - apply insert_throws_only.
  - intros [= <-]. by apply IH.
Qed.

(** With two or more elements every element meets the comparator, so
    one it cannot handle ends the sort. *)
Lemma sort_throws (l : list A) :
  (2 ≤ length l)%nat → Exists bad l → sort comparefn l = Throw e.
Proof.
  induction l as [| x rest IH]; intros Hlen Hbad; [cbn in Hlen; lia |].
  cbn [sort]. destruct (sort comparefn rest) as [s | e'] eqn:Hs;
    cbn [mbind Outcome_bind].
  - assert (Hhead : ∃ y s', s = y :: s' ∧ (Exists bad rest → bad x ∨ bad y)).
    { destruct rest as [| y' [| y'' rest']].
      - cbn in Hlen. lia.
      - cbn in Hs. injection Hs as <-. exists y', []. split; [done |].
        intros Hy%Exists_cons. right. destruct Hy as [Hy | Hy]; [done |].
        by apply Exists_nil in Hy.
      - destruct s as [| y s'].
        + apply sort_Permutation, Permutation_length in Hs. discriminate Hs.
        + exists y, s'. split; [done |]. intros Hrest.
          assert (Hc : Ok (y :: s') = Throw e) by (apply IH; [cbn; lia | done]).
          discriminate Hc. }
    destruct Hhead as (y & s' & -> & Hy). cbn [insert].
    rewrite throws; [done |].
    apply Exists_cons in Hbad as [Hx | Hrest]; [by left | by apply Hy].
  - by rewrite (sort_throws_only rest e' Hs).
Qed.
End SortThrows.

#[global] Instance status_le_trans : Transitive status_le.
Proof.
  intros a b c (x & y & Ha & Hb & Hxy) (y' & z & Hb' & Hc & Hyz).
  rewrite Hb in Hb'. injection Hb' as <-. exists x, z.
  repeat split; try done. by destruct x, y, z.
Qed.

(** X13: sorted by status, tasks whose status is a boolean come out
    with false before true when order is asc and with true before
    false otherwise, the engine's ToNumber taking false to 0 and true
    to 1. *)
Theorem get_list_by_status (env : Env) (query : ListQuery) (w : World)
    (tasks : list Obj) :
  ToNumber env (JBool false) = Fin (inject_Z 0) →
  ToNumber env (JBool true) = Fin (inject_Z 1) →
  sortBy query = Some "status" →
  (get_list env query w).1 = mkResponse 200 (TaskList tasks) →
  Forall (λ task, ∃ b, prop task "status" = JBool b) tasks →
  (order query = Some "asc" → StronglySorted status_le tasks) ∧
  (order query ≠ Some "asc" → StronglySorted (flip status_le) tasks).
Proof.
  intros H0 H1 Hby (_ & _ & kept & _ & Hperm & Hsort)%get_list_200 Hbool.
  rewrite Hby in Hsort. cbn in Hsort. rewrite <- Hperm in Hbool.
  assert (Hcmp : ∀ o a b v x y,
    prop a "status" = JBool x → prop b "status" = JBool y →
    compare_status env o a b = Ok v →
    sign v = if eqb x y then Eq
             else if String.eqb o "asc"
                  then (if x then Gt else Lt) else (if x then Lt else Gt)).
  { intros o a b v x y Ha Hb. unfold compare_status. rewrite Ha, Hb.
    cbn [strict_eq]. destruct x, y; cbn [eqb]; rewrite ?H0, ?H1;
      destruct (String.eqb o "asc"); by intros [= <-]. }
  split.
  - intros Hasc. rewrite Hasc in Hsort. cbn in Hsort.
    eapply (sort_sorted_on (compare_status env "asc")
              (λ task, ∃ b, prop task "status" = JBool b));
      [| | apply _ | exact Hbool | exact Hsort].
    + intros a b v [x Ha] [y Hb] Hc Hs. exists x, y. repeat split; try done.
      rewrite (Hcmp _ _ _ _ _ _ Ha Hb Hc) in Hs. by destruct x, y.
    + intros a b v [x Ha] [y Hb] Hc Hs. exists y, x. repeat split; try done.
      rewrite (Hcmp _ _ _ _ _ _ Ha Hb Hc) in Hs. by destruct x, y.
  - intros Hdesc.
    assert (Horder : String.eqb (default "desc" (order query)) "asc" = false).
    { destruct (order query) as [o |] eqn:Ho; [| done].
      cbn [default from_option id]. apply String.eqb_neq. intros ->.
      by apply Hdesc. }
    eapply (sort_sorted_on (compare_status env (default "desc" (order query)))
              (λ task, ∃ b, prop task "status" = JBool b));
      [| | | exact Hbool | exact Hsort].
    + intros a b v [x Ha] [y Hb] Hc Hs. exists y, x. repeat split; try done.
      rewrite (Hcmp _ _ _ _ _ _ Ha Hb Hc), Horder in Hs. by destruct x, y.
    + intros a b v [x Ha] [y Hb] Hc Hs. exists x, y. repeat split; try done.
      rewrite (Hcmp _ _ _ _ _ _ Ha Hb Hc), Horder in Hs. by destruct x, y.
    + intros a b c Hab Hbc. unfold flip in *. by transitivity b.
Qed.

Lemma get_list_by_status_witness :
  (λ task, prop task "status") <$>
    tasks_of (get_list Sample.env (Sample.by_status (Some "asc"))
                Sample.one_done).1 = [JBool false; JBool true] ∧
  StronglySorted status_le
    (tasks_of (get_list Sample.env (Sample.by_status (Some "asc"))
                 Sample.one_done).1).
Proof.
  split; [reflexivity |].
  eapply (get_list_by_status Sample.env (Sample.by_status (Some "asc"))
            Sample.one_done).
  - reflexivity.
  - reflexivity.
  - reflexivity.
  - by vm_compute.
  - vm_compute tasks_of. repeat constructor; eexists; reflexivity.
  - reflexivity.
Defined.

Lemma compare_createdAt_throws (order : string) (a b : Obj) :
  (∀ ms, prop a "createdAt" ≠ JDate ms) ∨
  (∀ ms, prop b "createdAt" ≠ JDate ms) →
  compare_createdAt order a b = Throw TypeError.
Proof.
  unfold compare_createdAt. intros [Ha | Hb].
  - destruct (prop a "createdAt") as [| | | | | x | |]; try done.
    by destruct (Ha x).
  - destruct (prop a "createdAt") as [| | | | | x | |]; try done.
    cbn [toDate mbind Outcome_bind].
    destruct (prop b "createdAt") as [| | | | | y | |]; try done.
    by destruct (Hb y).
Qed.

Lemma compare_createdAt_throws_only (order : string) (a b : Obj) (e : Error) :
  compare_createdAt order a b = Throw e → e = TypeError.
Proof.
  unfold compare_createdAt.
  destruct (prop a "createdAt") as [| | | | | x | |];
    cbn [toDate mbind Outcome_bind]; try by intros [= <-].
  destruct (prop b "createdAt") as [| | | | | y | |];
    cbn [toDate mbind Outcome_bind]; by intros [= <-].
Qed.

(** X14: the timestamp sort reads createdAt of every task it compares.
    Without a search term, when the collection holds two or more
    documents and one of them has no createdAt timestamp, the answer
    to sortBy=timestamp is 500 with a TypeError; a collection of one
    document is answered 200 whatever the document holds, the
    comparator not being called. *)
Theorem get_list_by_timestamp_needs_createdAt (env : Env)
    (query : ListQuery) (w : World) :
  given (search query) = false →
  sortBy query = Some "timestamp" →
  unavailable env (steps w) = false →
  ((2 ≤ size (db w))%nat →
   (∃ id data, db w !! id = Some data ∧
               ∀ ms, prop data "createdAt" ≠ JDate ms) →
   (get_list env query w).1 =
     mkResponse 500 (MessageError "Server error" TypeError)) ∧
  (∀ id data, db w = {[ id := data ]} →
     (get_list env query w).1 =
       mkResponse 200 (TaskList [with_id (id, data)])).
Proof.
  intros Hgiven Hby Hup.
  assert (Hfetched : fetched query w ≡ₚ map_to_list (db w)).
  { unfold fetched, base_query. rewrite Hgiven. apply merge_sort_Permutation. }
  rewrite get_list_runs, Hup, Hby. cbn [param_is].
  rewrite String.eqb_refl. split.
  - intros Hsize (id & data & Hdoc & Hbad).
    assert (Hlen : (2 ≤ length (fetched query w))%nat).
    { by rewrite Hfetched, length_map_to_list. }
    assert (Hin : (id, data) ∈ fetched query w).
    { rewrite Hfetched. by apply elem_of_map_to_list. }
    destruct (fetched query w) as [| doc rest] eqn:Hf; [cbn in Hlen; lia |].
    rewrite forEach_push_all by done. cbn [mbind Outcome_bind].
    rewrite (sort_throws (compare_createdAt (default "desc" (order query)))
               (λ task, ∀ ms, prop task "createdAt" ≠ JDate ms) TypeError).
    + done.
    + apply compare_createdAt_throws.
    + apply compare_createdAt_throws_only.
    + by rewrite length_fmap.
    + apply Exists_exists. exists (with_id (id, data)). split.
      * by apply (list_elem_of_fmap_2 with_id).
      * intros ms. by rewrite with_id_prop.
  - intros id data Hdb. rewrite Hdb, map_to_list_singleton in Hfetched.
    apply Permutation_singleton_r in Hfetched. rewrite Hfetched.
    by rewrite forEach_push_all.
Qed.

Lemma get_list_by_timestamp_needs_createdAt_witness :
  (get_list Sample.env (Sample.by_time None) Sample.legacy).1 =
    mkResponse 500 (MessageError "Server error" TypeError) ∧
  statusCode (get_list Sample.env (Sample.by_time None) Sample.lone).1 = 200.
Proof.
  split.
  - apply (get_list_by_timestamp_needs_createdAt Sample.env
             (Sample.by_time None) Sample.legacy);
      [reflexivity | reflexivity | reflexivity | by vm_compute |].
    exists "a", (Sample.task "Old" "one"). split; [reflexivity |].
    intros ms. by vm_compute.
  - destruct (get_list_by_timestamp_needs_createdAt Sample.env
                (Sample.by_time None) Sample.lone) as [_ H];
      [reflexivity | reflexivity | reflexivity |].
    by rewrite (H "a" (Sample.task "Old" "one") eq_refl).
Defined.

(** ** Create, then list *)

(** X15: a task the create handler answered 201 for is in the next
    unsorted, unfiltered list, under the identifier the create
    answered, with the title and description of the body and status
    false. *)
Theorem create_then_list (env : Env) (body : Obj) (order : option string)
    (w : World) :
  truthy (prop body "title") = true →
  truthy (prop body "description") = true →
  unavailable env (S (S (steps w))) = false →
  unavailable env (S (S (S (steps w)))) = false →
  db w !! autoId env (S (S (steps w))) = None →
  ∃ id tasks task,
    (post_to_do_list env body w).1 =
      mkResponse 201 (MessageId "Task added successfully" id) ∧
    (get_list env (mkListQuery None order None)
       (post_to_do_list env body w).2).1 =
      mkResponse 200 (TaskList tasks) ∧
    task ∈ tasks ∧
    task !! "id" = Some (JStr id) ∧
    task !! "title" = Some (prop body "title") ∧
    task !! "description" = Some (prop body "description") ∧
    task !! "status" = Some (JBool false) ∧
    length tasks = S (size (db w)).
Proof.
  intros Ht Hd Hup Hup' Hfresh.
  rewrite get_list_runs.
  rewrite (post_to_do_list_accepts env body w Ht Hd). cbv zeta.
  rewrite Hup, Hfresh. cbn [fst snd steps]. rewrite Hup'.
  unfold fetched. cbn [search base_query given db sortBy param_is].
  set (id := autoId env (S (S (steps w)))) in *.
  match goal with
  | |- context [<[id := ?t]> (db w)] => set (task := t)
  end.
  assert (Hperm : merge_sort by_id (map_to_list (<[id := task]> (db w)))
                  ≡ₚ (id, task) :: map_to_list (db w)).
  { rewrite merge_sort_Permutation. by apply map_to_list_insert. }
  cbn [run_query].
  destruct (merge_sort by_id _) as [| doc rest] eqn:Hsnap.
  { by apply Permutation_nil_cons in Hperm. }
  rewrite forEach_push_all by done. cbn [mbind Outcome_bind].
  exists id, (with_id <$> doc :: rest), (with_id (id, task)).
  split; [done |]. split; [done |]. split.
  { apply (list_elem_of_fmap_2 with_id). rewrite Hperm. by left. }
  assert (Hnoid : task !! "id" = None) by (subst task; by simplify_map_eq).
  split; [by apply with_id_fresh |].
  rewrite !with_id_lookup by done. cbn [snd]. subst task.
  repeat split; try by simplify_map_eq.
  by rewrite length_fmap, Hperm, length_cons, length_map_to_list.
Qed.

Lemma create_then_list_witness :
  ∃ id tasks task,
    (get_list Sample.env (mkListQuery None None None)
       (post_to_do_list Sample.env (Sample.task "A" "B")
          Sample.two_tasks).2).1 = mkResponse 200 (TaskList tasks) ∧
    task ∈ tasks ∧
    task !! "id" = Some (JStr id) ∧
    task !! "title" = Some (JStr "A") ∧
    length tasks = 3%nat.
Proof.
  destruct (create_then_list Sample.env (Sample.task "A" "B") None
              Sample.two_tasks)
    as (id & tasks & task & _ & Hlist & Hin & Hid & Htitle & _ & _ & Hlen);
    try reflexivity.
  exists id, tasks, task. repeat split; try done.
Defined.

(** ** Posting and reading chat messages *)





#[global] Instance timestamp_le_trans : Transitive timestamp_le.
Proof.
  intros a b c (x & y & Ha & Hb & Hxy) (y' & z & Hb' & Hc & Hyz).
  rewrite Hb in Hb'. injection Hb' as <-. exists x, z.
  repeat split; try done. by apply (Qle_trans x y z).
Qed.

Lemma Sorted_among {A : Type} (R : relation A) (P : A → Prop) (l : list A) :
  Sorted R l → Forall P l → Sorted (λ x y, R x y ∧ P x ∧ P y) l.
Proof.
  induction 1 as [| x l Hl IH Hhd]; intros HP; [constructor |].
  apply Forall_cons in HP as [Hx HP]. constructor; [by apply IH |].
  destruct Hhd as [| y l' Hxy]; constructor.
  apply Forall_cons in HP as [Hy _]. by repeat split.
Qed.

(** X18: when the timestamps of the stored messages are numbers, as
    those the post handler writes, GET /chats lists the messages in
    non-decreasing timestamp order; and a post keeps the timestamps
    numbers. *)
Theorem get_chats_ascending (env : Env) (body : Obj) (w : World) :
  map_Forall (λ _ value, ∃ q, prop value "timestamp" = JNum (Fin q))
    (rtdb w) →
  StronglySorted timestamp_le (messages_of (get_chats env w).1) ∧
  map_Forall (λ _ value, ∃ q, prop value "timestamp" = JNum (Fin q))
    (rtdb (post_chat env body w).2).
Proof.
  intros Hnum. split.
  - rewrite get_chats_runs. destruct (unavailable env _); [constructor |].
    assert (Hsorted : StronglySorted timestamp_le
                        (with_id <$> orderByChild_timestamp (rtdb w))).
    { apply Sorted_StronglySorted; [apply _ |].
      eapply (Sorted_fmap with_id
                (λ c d, by_timestamp c d ∧
                        (∃ q, prop c.2 "timestamp" = JNum (Fin q)) ∧
                        (∃ q, prop d.2 "timestamp" = JNum (Fin q)))).
      - intros c d (Hcd & [x Hx] & [y Hy]). exists x, y.
        rewrite !with_id_prop by done. repeat split; try done.
        by apply (by_timestamp_numeric c d).
      - apply Sorted_among; [apply (Sorted_merge_sort _) |].
        apply Forall_forall. intros [key value] Hin.
        unfold orderByChild_timestamp in Hin.
        rewrite merge_sort_Permutation in Hin.
        apply elem_of_map_to_list in Hin. by apply (Hnum key value). }
    destruct (orderByChild_timestamp (rtdb w)); [constructor | exact Hsorted].
  - destruct (truthy (prop body "username")) eqn:Hu;
      [destruct (truthy (prop body "message")) eqn:Hm |].
    + rewrite (post_chat_accepts env body w Hu Hm). cbv zeta.
      destruct (unavailable env _); [done |]. cbn [snd rtdb].
      apply map_Forall_insert_2; [| done].
      eexists. unfold prop. by simplify_map_eq.
    + by rewrite post_chat_rejects by auto.
    + by rewrite post_chat_rejects by auto.
Qed.

Lemma get_chats_ascending_witness :
  length (messages_of (get_chats Sample.env Sample.two_chats).1) = 2%nat ∧
  StronglySorted timestamp_le
    (messages_of (get_chats Sample.env Sample.two_chats).1).
Proof.
  split; [reflexivity |].
  apply (get_chats_ascending Sample.env ∅ Sample.two_chats).
  apply map_Forall_to_list. vm_compute map_to_list.
  repeat constructor; eexists; reflexivity.
Defined.

(** X19: the id of a listed message or task is the [id] field stored
    with it when there is one, and the store's key otherwise; every
    other field is the stored one. *)
Theorem listed_ids (env : Env) (query : ListQuery) (w : World) :
  (∀ messages message,
     (get_chats env w).1 = mkResponse 200 (MessageList messages) →
     message ∈ messages →
     ∃ key value,
       rtdb w !! key = Some value ∧
       message !! "id" = Some (default (JStr key) (value !! "id")) ∧
       ∀ k, k ≠ "id" → message !! k = value !! k) ∧
  (∀ tasks task,
     (get_list env query w).1 = mkResponse 200 (TaskList tasks) →
     task ∈ tasks →
     ∃ id data,
       db w !! id = Some data ∧
       task !! "id" = Some (default (JStr id) (data !! "id")) ∧
       ∀ k, k ≠ "id" → task !! k = data !! k).
Proof.
  assert (Hid : ∀ entry : string * Obj,
    with_id entry !! "id" = Some (default (JStr entry.1) (entry.2 !! "id"))).
  { intros [key value]. cbn [fst snd].
    destruct (value !! "id") as [v |] eqn:Hv.
    - unfold with_id. cbn [fst snd]. by apply lookup_union_Some_l.
    - by apply with_id_fresh. }
  split.
  - intros messages message. rewrite get_chats_runs.
    destruct (unavailable env _); [discriminate |].
    destruct (orderByChild_timestamp (rtdb w)) as [| c rest] eqn:Hsnap;
      [discriminate |].
    intros [= <-] Hin. change (message ∈ with_id <$> c :: rest) in Hin.
    apply list_elem_of_fmap in Hin as ([key value] & -> & Hin).
    exists key, value. split.
    + apply elem_of_map_to_list.
      rewrite <- (merge_sort_Permutation by_timestamp).
      fold (orderByChild_timestamp (rtdb w)). by rewrite Hsnap.
    + split; [apply (Hid (key, value)) |].
      intros k Hk. by apply with_id_lookup.
  - intros tasks task (_ & _ & kept & Hk & Hperm & _)%get_list_200 Hin.
    rewrite <- Hperm in Hin.
    destruct (forEach_push_kept _ _ _ _ Hk) as [Hsub _].
    apply (sublist_subseteq _ _ Hsub), list_elem_of_fmap in Hin
      as ([id data] & -> & Hdoc).
    apply run_query_elem in Hdoc as [Hdoc _].
    exists id, data. split; [done |].
    split; [apply (Hid (id, data)) |].
    intros k Hk'. by apply with_id_lookup.
Qed.

Lemma listed_ids_witness :
  ∃ message,
    (get_chats Sample.env Sample.shadowed).1 =
      mkResponse 200 (MessageList [message]) ∧
    message !! "id" = Some (JStr "mine").
Proof.
  eexists. split; [reflexivity |].
  destruct (listed_ids Sample.env (Sample.by_time None) Sample.shadowed)
    as [H _].
  destruct (H _ _ eq_refl ltac:(by left)) as (key & value & Hkv & Hid & _).
  assert (key = "k1" ∧ value = <["id" := JStr "mine"]> (Sample.chat "al" "hi"))
    as [-> ->].
  { cbn [Sample.shadowed rtdb] in Hkv.
    apply lookup_singleton_Some in Hkv. by destruct Hkv. }
  exact Hid.
Defined.
